(** * ScalpEngine: a sell-only pullback scalper

    A shallow embedding of [src/ScalpEngine.js] and of the properties its
    specification states about it.

    Conventions of the embedding.
    - JavaScript numbers holding prices, indicator values and R multiples are
      rationals ([Q]); [None] stands for [undefined] and [NaN], which the
      engine cannot tell apart (both are falsy, both make every comparison
      false, both propagate through arithmetic).  Rounding of binary floating
      point is not modelled.
    - Timestamps are integers ([Z]), milliseconds since the epoch.
    - The engine object is a record; every method takes the engine and
      returns the new engine next to its result.
    - A method that can raise returns a [res]; [Throw] is the exception.
    - The [technicalindicators] package is not part of the repository: its
      six entry points are the fields of the record [Indicators], and every
      statement quantifies over them.
    - [Date.now()] is an explicit argument. *)

From Stdlib Require Import QArith Qround Qabs Lqa ZArith Lia.
From stdpp Require Import gmap strings list fin_maps.

Set Default Proof Using "Type".

(** ** JavaScript values *)

Definition num : Type := option Q.

Definition Num (q : Q) : num := Some q.

Definition Qlt_bool (x y : Q) : bool := negb (Qle_bool y x).

(** [a || b] on operands that are numbers or [undefined]. *)
Definition js_or (a b : num) : num :=
  match a with
  | Some q => if Qeq_bool q 0 then b else a
  | None => b
  end.

(** [!a] *)
Definition js_not (a : num) : bool :=
  match a with
  | Some q => Qeq_bool q 0
  | None => true
  end.

Definition js_lt (a b : num) : bool :=
  match a, b with Some x, Some y => Qlt_bool x y | _, _ => false end.
Definition js_le (a b : num) : bool :=
  match a, b with Some x, Some y => Qle_bool x y | _, _ => false end.
Definition js_gt (a b : num) : bool := js_lt b a.
Definition js_ge (a b : num) : bool := js_le b a.

Definition js_lift2 (f : Q → Q → Q) (a b : num) : num :=
  match a, b with Some x, Some y => Some (f x y) | _, _ => None end.
Definition js_add : num → num → num := js_lift2 Qplus.
Definition js_sub : num → num → num := js_lift2 Qminus.
Definition js_mul : num → num → num := js_lift2 Qmult.

(** [Math.abs] *)
Definition js_abs (a : num) : num := Qabs <$> a.

Declare Scope js_scope.
Delimit Scope js_scope with js.
Infix "<" := js_lt : js_scope.
Infix "<=" := js_le : js_scope.
Infix ">" := js_gt : js_scope.
Infix ">=" := js_ge : js_scope.
Infix "+" := js_add : js_scope.
Infix "-" := js_sub : js_scope.
Infix "*" := js_mul : js_scope.
Infix "||" := js_or : js_scope.

(** [Math.max(...xs)] on a non-empty argument list: [NaN] as soon as one
    argument is not a number.  On no argument at all JavaScript answers
    [-Infinity]; the engine only calls it on the seven bars of
    [slice(-8, -1)] of at least thirty candles (see [lookback_length]). *)
Fixpoint Math_max (xs : list num) : num :=
  match xs with
  | [] => None
  | [x] => x
  | x :: rest =>
      match x, Math_max rest with
      | Some a, Some b => Some (if Qle_bool a b then b else a)
      | _, _ => None
      end
  end.

(** [arr[arr.length - k]]: [undefined] when the index is negative. *)
Definition at_end {A} (arr : list A) (k : nat) : option A :=
  if (k <=? length arr)%nat then arr !! (length arr - k)%nat else None.

(** [arr.slice(-a)] *)
Definition slice_last {A} (a : nat) (arr : list A) : list A :=
  drop (length arr - a) arr.

(** [arr.slice(-a, -b)] *)
Definition slice_neg {A} (a b : nat) (arr : list A) : list A :=
  let n := length arr in
  take ((n - b) - (n - a)) (drop (n - a) arr).

(** [x.toFixed(digits)] as the integer number of units of [10^-digits]:
    the nearest one, the larger of two equally near, the sign apart. *)
Definition toFixed (digits : nat) (x : Q) : Z :=
  let scaled := (Qabs x * inject_Z (10 ^ Z.of_nat digits))%Q in
  let n := Qfloor (scaled + 0.5)%Q in
  if Qlt_bool x 0 then (- n)%Z else n.

(** [Math.ceil] of a quotient of integers, for a positive divisor. *)
Definition ceil_div (a b : Z) : Z := (- ((- a) / b))%Z.

(** Results of code that may raise. *)
Inductive res (A : Type) : Type :=
  | Ok (a : A)
  | Throw.
Arguments Ok {A} a.
Arguments Throw {A}.

#[global] Instance res_ret : MRet res := λ A a, Ok a.
#[global] Instance res_bind : MBind res := λ A B f m,
  match m with Ok a => f a | Throw => Throw end.

(** [try { body } catch { return fallback }] *)
Definition try_catch {A} (body : res A) (fallback : A) : A :=
  match body with Ok a => a | Throw => fallback end.

(** ** Configuration *)

Module SCALP_CONFIG.
Definition RR : Q := 1.8.
Definition ATR_MUL : Q := 1.0.
Definition MAX_PB_ATR : Q := 0.4.
Definition MIN_CONF : Z := 65.
Definition MAX_HOLD : Z := 20.
Definition COOLDOWN : Z := 5.
Definition HOUR_START : Z := 12.
Definition HOUR_END : Z := 13.
End SCALP_CONFIG.
Import SCALP_CONFIG.

(** ** Data *)

(** The fields of a price bar the engine reads.  A bar carries its values
    under the long names, the short names, or both. *)
Record Candle : Type := mkCandle {
  c_high : num; c_h : num;
  c_low : num; c_l : num;
  c_close : num; c_c : num
}.

Definition candleClose (c : Candle) : num := (c_close c || c_c c)%js.
Definition candleHigh (c : Candle) : num := (c_high c || c_h c)%js.
Definition candleLow (c : Candle) : num := (c_low c || c_l c)%js.

Inductive Trend : Type := NEUTRAL | BULLISH | BEARISH.

#[global] Instance Trend_eq_dec : EqDecision Trend.
Proof. solve_decision. Defined.

Inductive Reason : Type :=
  | PerfectTap            (* 'Perfect EMA21 tap' *)
  | CleanPullback         (* 'Clean EMA21 pullback' *)
  | RsiOverbought (r : Z) (* `RSI falling from overbought (${rsi.toFixed(0)})` *)
  | FreshStochCross       (* 'Fresh stoch bearish cross' *)
  | MacdAccelerating.     (* 'MACD accelerating down' *)

(** The object [getSellSignal] returns. *)
Record Setup : Type := mkSetup {
  sig_confidence : Z;
  sig_price : num;
  sig_sl : num;
  sig_tp : num;
  sig_risk : num;
  sig_atr : num;
  sig_pullbackHigh : num;
  sig_ema21 : num;
  sig_rsi : num;
  sig_stochK : num;
  sig_macdHist : num;
  sig_reasons : list Reason
}.

(** The trade object [generateSignal] stores; [action] is always 'SELL' and
    [lotSize] always [null]. *)
Record Trade : Type := mkTrade {
  t_symbol : string;
  t_entryPrice : Q;
  t_sl : num;
  t_tp : num;
  t_risk : num;
  t_rr : Q;
  t_confidence : Z;
  t_atr : num;
  t_openTime : Z;
  t_reasons : list Reason
}.

Inductive OutcomeKind : Type := WIN | LOSS | EXPIRED.

(** [{ ...trade, result, rPnL, closePrice }] *)
Record Outcome : Type := mkOutcome {
  o_trade : Trade;
  o_result : OutcomeKind;
  o_rPnL : Q;
  o_closePrice : num
}.

Record SymStats : Type := mkSymStats {
  ss_wins : nat;
  ss_losses : nat;
  ss_totalR : Q
}.

Record Stats : Type := mkStats {
  wins : nat;
  losses : nat;
  expired : nat;
  totalR : Q;
  bySymbol : gmap string SymStats
}.

(** The engine: [null] and a missing key are both kept, as [Some None] and
    [None] of [openTrade]. *)
Record Engine : Type := mkEngine {
  candles1m : gmap string (list Candle);
  candles5m : gmap string (list Candle);
  candles1h : gmap string (list Candle);
  openTrade : gmap string (option Trade);
  lastSignalTs : gmap string Z;
  stats : Stats
}.

(** [new ScalpEngine()] *)
Definition constructor : Engine :=
  {| candles1m := ∅; candles5m := ∅; candles1h := ∅;
     openTrade := ∅; lastSignalTs := ∅;
     stats := {| wins := 0; losses := 0; expired := 0; totalR := 0;
                 bySymbol := ∅ |} |}.

(** The trade [this.openTrade[symbol]] holds, if it is truthy. *)
Definition open_trade (s : Engine) (symbol : string) : option Trade :=
  match openTrade s !! symbol with
  | Some (Some t) => Some t
  | _ => None
  end.

(** ** Candle store *)

Definition load1mCandles (s : Engine) (symbol : string) (candles : list Candle)
  : Engine :=
  {| candles1m := <[symbol := slice_last 100 candles]> (candles1m s);
     candles5m := candles5m s;
     candles1h := candles1h s;
     openTrade := <[symbol := None]> (openTrade s);
     lastSignalTs := <[symbol := 0%Z]> (lastSignalTs s);
     stats :=
       match bySymbol (stats s) !! symbol with
       | Some _ => stats s
       | None =>
           {| wins := wins (stats s); losses := losses (stats s);
              expired := expired (stats s); totalR := totalR (stats s);
              bySymbol :=
                <[symbol := {| ss_wins := 0; ss_losses := 0; ss_totalR := 0 |}]>
                  (bySymbol (stats s)) |}
       end |}.

Definition load5mCandles (s : Engine) (symbol : string) (candles : list Candle)
  : Engine :=
  {| candles1m := candles1m s;
     candles5m := <[symbol := slice_last 80 candles]> (candles5m s);
     candles1h := candles1h s;
     openTrade := openTrade s;
     lastSignalTs := lastSignalTs s;
     stats := stats s |}.

Definition load1hCandles (s : Engine) (symbol : string) (candles : list Candle)
  : Engine :=
  {| candles1m := candles1m s;
     candles5m := candles5m s;
     candles1h := <[symbol := slice_last 100 candles]> (candles1h s);
     openTrade := openTrade s;
     lastSignalTs := lastSignalTs s;
     stats := stats s |}.

(** [buf.push(candle); if (buf.length > cap) buf.shift()] on the buffer of
    [symbol], created empty when missing. *)
Definition push_bounded (cap : nat) (buf : option (list Candle)) (candle : Candle)
  : list Candle :=
  let pushed := default [] buf ++ [candle] in
  if (cap <? length pushed)%nat then tail pushed else pushed.

Definition push1mCandle (s : Engine) (symbol : string) (candle : Candle) : Engine :=
  {| candles1m :=
       <[symbol := push_bounded 100 (candles1m s !! symbol) candle]> (candles1m s);
     candles5m := candles5m s;
     candles1h := candles1h s;
     openTrade := openTrade s;
     lastSignalTs := lastSignalTs s;
     stats := stats s |}.

Definition push5mCandle (s : Engine) (symbol : string) (candle : Candle) : Engine :=
  {| candles1m := candles1m s;
     candles5m :=
       <[symbol := push_bounded 80 (candles5m s !! symbol) candle]> (candles5m s);
     candles1h := candles1h s;
     openTrade := openTrade s;
     lastSignalTs := lastSignalTs s;
     stats := stats s |}.

(** ** The indicator package *)

(** Rows of [Stochastic.calculate], [MACD.calculate] and [ADX.calculate];
    a field is [undefined] until the indicator has warmed up. *)
Record StochRow : Type := mkStoch { st_k : num; st_d : num }.
Record MACDRow : Type := mkMACD { histogram : num }.
Record ADXRow : Type := mkADX { adx : num }.

(** The entry points of [technicalindicators] the engine calls, with the
    arguments in the order of the option objects it passes.  Each may raise. *)
Record Indicators : Type := mkIndicators {
  EMA : ∀ (values : list num) (period : nat), res (list num);
  RSI : ∀ (values : list num) (period : nat), res (list num);
  ATR : ∀ (high low close : list num) (period : nat), res (list num);
  Stochastic :
    ∀ (high low close : list num) (period signalPeriod : nat), res (list StochRow);
  ADX : ∀ (high low close : list num) (period : nat), res (list ADXRow);
  MACD :
    ∀ (values : list num) (fastPeriod slowPeriod signalPeriod : nat),
      res (list MACDRow)
}.

(** [!arr.length] *)
Definition no_length {A} (arr : list A) : bool :=
  match arr with [] => true | _ => false end.

(** ** Session gate *)

(** [new Date(ts)] is an invalid date beyond 8.64e15 ms from the epoch, and
    its getters then answer [NaN]. *)
Definition valid_date (ts : Z) : bool := (Z.abs ts <=? 8640000000000000)%Z.

Definition getUTCHours (ts : Z) : option Z :=
  if valid_date ts then Some ((ts / 3600000) mod 24)%Z else None.

(** Day 0 is Sunday; 1 January 1970 was a Thursday. *)
Definition getUTCDay (ts : Z) : option Z :=
  if valid_date ts then Some ((ts / 86400000 + 4) mod 7)%Z else None.

(** Comparisons of a getter's answer with an integer: false on [NaN]. *)
Definition is_eq (a : option Z) (n : Z) : bool :=
  match a with Some x => (x =? n)%Z | None => false end.
Definition is_lt (a : option Z) (n : Z) : bool :=
  match a with Some x => (x <? n)%Z | None => false end.
Definition is_ge (a : option Z) (n : Z) : bool :=
  match a with Some x => (n <=? x)%Z | None => false end.

Definition isScalpSession (ts : Z) : bool :=
  let hour := getUTCHours ts in
  let day := getUTCDay ts in
  if is_eq day 0 || is_eq day 6 then false
  else if is_eq day 1 && is_lt hour 10 then false
  else if is_eq day 5 && is_ge hour HOUR_END then false
  else is_ge hour HOUR_START && is_lt hour HOUR_END.

(** ** Trend filters and setup detector *)

Section Engine.

Variable lib : Indicators.

(** [get1hMacro]: the body of the [try] block, then the method. *)
Definition macro_body (closes highs lows : list num) : res Trend :=
  ema21 ← EMA lib closes 21;
  ema50 ← EMA lib closes 50;
  adxs ← ADX lib highs lows closes 14;
  if no_length ema21 || no_length ema50 || no_length adxs then Ok NEUTRAL
  else
    let e21 := mjoin (at_end ema21 1) in
    let e50 := mjoin (at_end ema50 1) in
    let price := mjoin (at_end closes 1) in
    let adxVal := at_end adxs 1 ≫= adx in
    if (adxVal < Num 20)%js then Ok NEUTRAL
    else if (e21 > e50)%js && (price > e21)%js then Ok BULLISH
    else if (e21 < e50)%js && (price < e21)%js then Ok BEARISH
    else Ok NEUTRAL.

Definition get1hMacro (s : Engine) (symbol : string) : Trend :=
  match candles1h s !! symbol with
  | None => NEUTRAL
  | Some c1h =>
      if (length c1h <? 55)%nat then NEUTRAL
      else
        let closes := candleClose <$> c1h in
        let highs := candleHigh <$> c1h in
        let lows := candleLow <$> c1h in
        try_catch (macro_body closes highs lows) NEUTRAL
  end.

(** [get5mTrend] *)
Definition trend_body (closes highs lows : list num) : res Trend :=
  ema9 ← EMA lib closes 9;
  ema21 ← EMA lib closes 21;
  ema50 ← EMA lib closes 50;
  adxs ← ADX lib highs lows closes 14;
  if no_length ema9 || no_length ema21 || no_length ema50 || no_length adxs
  then Ok NEUTRAL
  else
    let e9 := mjoin (at_end ema9 1) in
    let e21 := mjoin (at_end ema21 1) in
    let e50 := mjoin (at_end ema50 1) in
    let p := mjoin (at_end closes 1) in
    let adxVal := at_end adxs 1 ≫= adx in
    if (e9 < e21)%js && (e21 < e50)%js && (p < e9)%js && (adxVal >= Num 25)%js
    then Ok BEARISH
    else Ok NEUTRAL.

Definition get5mTrend (s : Engine) (symbol : string) : Trend :=
  match candles5m s !! symbol with
  | None => NEUTRAL
  | Some c5 =>
      if (length c5 <? 55)%nat then NEUTRAL
      else
        let closes := candleClose <$> c5 in
        let highs := candleHigh <$> c5 in
        let lows := candleLow <$> c5 in
        try_catch (trend_body closes highs lows) NEUTRAL
  end.

(** [_buildReasons]; [macdPrev] is [None] when the row is missing. *)
Definition _buildReasons (dist atr rsi : num) (stoch stochPrev : StochRow)
    (macd : MACDRow) (macdPrev : option MACDRow) : list Reason :=
  (if (dist < atr * Num 0.15)%js then [PerfectTap]
   else if (dist < atr * Num 0.3)%js then [CleanPullback] else [])
  ++ (if (rsi > Num 60)%js
      then [RsiOverbought (toFixed 0 (default 0%Q rsi))] else [])
  ++ (if (st_k stoch < st_d stoch)%js && (st_k stochPrev >= st_d stochPrev)%js
      then [FreshStochCross] else [])
  ++ (match macdPrev with
      | Some mp =>
          if (histogram macd < Num 0)%js && (histogram macd < histogram mp)%js
          then [MacdAccelerating] else []
      | None => []
      end).

(** The confidence score of [getSellSignal] before the cap. *)
Definition confidence (distToEMA atrVal rsiVal rsiPrev e8 e8Prev e21 e21Prev : num)
    (stochCur stochPrev : StochRow) (macdCur : MACDRow)
    (macdPrev : option MACDRow) : Z :=
  (50
   + (if (distToEMA < atrVal * Num 0.15)%js then 20
      else if (distToEMA < atrVal * Num 0.3)%js then 12
      else if (distToEMA < atrVal * Num 0.4)%js then 5 else 0)
   + (if (rsiVal > Num 60)%js && (rsiVal < rsiPrev)%js then 12
      else if (rsiVal > Num 50)%js then 6 else 0)
   + (if (st_k stochCur < st_d stochCur)%js
         && (st_k stochPrev >= st_d stochPrev)%js then 12
      else if (st_k stochCur < st_d stochCur)%js then 5 else 0)
   + (if (st_k stochCur > Num 65)%js && (st_k stochCur < st_d stochCur)%js
      then 5 else 0)
   + (if (histogram macdCur < Num 0)%js then 8 else 0)
   + (match macdPrev with
      | Some mp =>
          if (histogram macdCur < Num 0)%js
             && (histogram macdCur < histogram mp)%js then 6 else 0
      | None => 0
      end)
   + (if (e21 < e21Prev)%js then 5 else 0)
   + (if (e8 < e8Prev)%js then 4 else 0))%Z.

(** [getSellSignal] from the line after the indicator calls to its last
    [return]; [None] is [null]. *)
Definition sell_decision (c1 : list Candle) (closes : list num)
    (ema8 ema21 rsi atr : list num) (stoch : list StochRow)
    (macd : list MACDRow) : option Setup :=
  if no_length ema21 || no_length rsi || no_length atr then None
  else
    let price := mjoin (at_end closes 1) in
    let prevPrice := mjoin (at_end closes 2) in
    let e8 := mjoin (at_end ema8 1) in
    let e8Prev := mjoin (at_end ema8 2) in
    let e21 := mjoin (at_end ema21 1) in
    let e21Prev := mjoin (at_end ema21 2) in
    let rsiVal := mjoin (at_end rsi 1) in
    let rsiPrev := mjoin (at_end rsi 2) in
    let atrVal := mjoin (at_end atr 1) in
    let macdPrev := at_end macd 2 in
    if js_not atrVal || (atrVal < Num 0.3)%js then None
    else
      let lookback := slice_neg 8 1 c1 in
      let pullbackHigh := Math_max (candleHigh <$> lookback) in
      let distToEMA := js_abs (pullbackHigh - e21)%js in
      if (distToEMA > atrVal * Num MAX_PB_ATR)%js then None
      else if (pullbackHigh > e21 + atrVal * Num 1.0)%js then None
      else if (price >= e8)%js then None
      else if (price >= prevPrice)%js then None
      else if (rsiVal < Num 35)%js then None
      else if (rsiVal >= rsiPrev)%js then None
      else if (e21 >= e21Prev)%js then None
      else if (e8 >= e8Prev)%js then None
      else
        match at_end stoch 1, at_end stoch 2 with
        | Some stochCur, Some stochPrev =>
            if (st_k stochCur < Num 25)%js then None
            else if (st_k stochCur >= st_d stochCur)%js
                    && (st_k stochPrev >= st_d stochPrev)%js then None
            else
              match at_end macd 1 with
              | None => None
              | Some macdCur =>
                  if (histogram macdCur > Num 0)%js
                     && match macdPrev with
                        | None => true
                        | Some mp => (histogram macdCur >= histogram mp)%js
                        end
                  then None
                  else
                    let conf :=
                      Z.min
                        (confidence distToEMA atrVal rsiVal rsiPrev e8 e8Prev
                           e21 e21Prev stochCur stochPrev macdCur macdPrev)
                        95 in
                    if (conf <? MIN_CONF)%Z then None
                    else
                      let sl := (price + atrVal * Num ATR_MUL)%js in
                      let risk := js_abs (price - sl)%js in
                      if (risk <= Num 0)%js || (risk > atrVal * Num 3)%js
                      then None
                      else
                        let tp := (price - risk * Num RR)%js in
                        Some
                          {| sig_confidence := conf;
                             sig_price := price;
                             sig_sl := sl;
                             sig_tp := tp;
                             sig_risk := risk;
                             sig_atr := atrVal;
                             sig_pullbackHigh := pullbackHigh;
                             sig_ema21 := e21;
                             sig_rsi := rsiVal;
                             sig_stochK := st_k stochCur;
                             sig_macdHist := histogram macdCur;
                             sig_reasons :=
                               _buildReasons distToEMA atrVal rsiVal
                                 stochCur stochPrev macdCur macdPrev |}
              end
        | _, _ => None
        end.

(** The [try] block of [getSellSignal]. *)
Definition signal_body (c1 : list Candle) (closes highs lows : list num)
  : res (option Setup) :=
  ema8 ← EMA lib closes 8;
  ema21 ← EMA lib closes 21;
  rsi ← RSI lib closes 7;
  atr ← ATR lib highs lows closes 7;
  stoch ← Stochastic lib highs lows closes 5 3;
  macd ← MACD lib closes 5 13 4;
  Ok (sell_decision c1 closes ema8 ema21 rsi atr stoch macd).

Definition getSellSignal (s : Engine) (symbol : string) : option Setup :=
  match candles1m s !! symbol with
  | None => None
  | Some c1 =>
      if (length c1 <? 30)%nat then None
      else
        let closes := candleClose <$> c1 in
        let highs := candleHigh <$> c1 in
        let lows := candleLow <$> c1 in
        try_catch (signal_body c1 closes highs lows) None
  end.

End Engine.

(** ** Stats aggregator *)

Definition with_stats (s : Engine) (st : Stats) : Engine :=
  {| candles1m := candles1m s; candles5m := candles5m s;
     candles1h := candles1h s; openTrade := openTrade s;
     lastSignalTs := lastSignalTs s; stats := st |}.

(** [_recordResult].  The global counters are written first; reading
    [this.stats.bySymbol[symbol].wins] of a symbol that has no entry raises
    a [TypeError], and the global writes made before it stay. *)
Definition _recordResult (st : Stats) (symbol : string) (outcome : OutcomeKind)
    (rPnL : Q) : res unit * Stats :=
  match outcome with
  | WIN =>
      let st1 :=
        {| wins := S (wins st); losses := losses st; expired := expired st;
           totalR := (totalR st + rPnL)%Q; bySymbol := bySymbol st |} in
      match bySymbol st1 !! symbol with
      | None => (Throw, st1)
      | Some e =>
          (Ok (),
           {| wins := wins st1; losses := losses st1; expired := expired st1;
              totalR := totalR st1;
              bySymbol :=
                <[symbol := {| ss_wins := S (ss_wins e);
                               ss_losses := ss_losses e;
                               ss_totalR := (ss_totalR e + rPnL)%Q |}]>
                  (bySymbol st1) |})
      end
  | LOSS =>
      let st1 :=
        {| wins := wins st; losses := S (losses st); expired := expired st;
           totalR := (totalR st + rPnL)%Q; bySymbol := bySymbol st |} in
      match bySymbol st1 !! symbol with
      | None => (Throw, st1)
      | Some e =>
          (Ok (),
           {| wins := wins st1; losses := losses st1; expired := expired st1;
              totalR := totalR st1;
              bySymbol :=
                <[symbol := {| ss_wins := ss_wins e;
                               ss_losses := S (ss_losses e);
                               ss_totalR := (ss_totalR e + rPnL)%Q |}]>
                  (bySymbol st1) |})
      end
  | EXPIRED =>
      (Ok (),
       {| wins := wins st; losses := losses st; expired := S (expired st);
          totalR := (totalR st + rPnL)%Q; bySymbol := bySymbol st |})
  end.

(** A string [getStats] builds: the output of [toFixed], a literal ['0'],
    or the literal ['∞']. *)
Inductive StatString : Type :=
  | Fixed (digits : nat) (units : Z)
  | Zero
  | Infinity.

(** The number a [StatString] reads as, if it reads as one. *)
Definition stat_value (v : StatString) : option Q :=
  match v with
  | Fixed digits units => Some (inject_Z units / inject_Z (10 ^ Z.of_nat digits))%Q
  | Zero => Some 0%Q
  | Infinity => None
  end.

Record StatsReport : Type := mkReport {
  r_stats : Stats;
  winRate : StatString;
  profitFactor : StatString;
  closed : nat
}.

Definition Q_of_nat (n : nat) : Q := inject_Z (Z.of_nat n).

Definition getStats (s : Engine) : StatsReport :=
  let closed := (wins (stats s) + losses (stats s))%nat in
  let wr :=
    if (0 <? closed)%nat
    then Fixed 1 (toFixed 1 (Q_of_nat (wins (stats s)) / Q_of_nat closed * 100)%Q)
    else Zero in
  let pf :=
    if (0 <? losses (stats s))%nat
    then Fixed 2 (toFixed 2 (Q_of_nat (wins (stats s)) * RR
                             / Q_of_nat (losses (stats s)))%Q)
    else Infinity in
  {| r_stats := stats s; winRate := wr; profitFactor := pf; closed := closed |}.

(** ** Trade lifecycle *)

Definition close_trade (s : Engine) (symbol : string) : Engine :=
  {| candles1m := candles1m s; candles5m := candles5m s;
     candles1h := candles1h s;
     openTrade := <[symbol := None]> (openTrade s);
     lastSignalTs := lastSignalTs s; stats := stats s |}.

(** The three closing branches of [resolveOpenTrade] share their shape:
    build the result, clear the slot, record, return. *)
Definition settle (s : Engine) (symbol : string) (trade : Trade)
    (kind : OutcomeKind) (rPnL : Q) (closePrice : num)
  : res (option Outcome) * Engine :=
  let result :=
    {| o_trade := trade; o_result := kind; o_rPnL := rPnL;
       o_closePrice := closePrice |} in
  let s1 := close_trade s symbol in
  let '(r, st) := _recordResult (stats s1) symbol kind rPnL in
  (r ≫= λ _, Ok (Some result), with_stats s1 st).

(** [resolveOpenTrade]; [now] is [Date.now()]. *)
Definition resolveOpenTrade (s : Engine) (symbol : string) (newCandle : Candle)
    (now : Z) : res (option Outcome) * Engine :=
  match open_trade s symbol with
  | None => (Ok None, s)
  | Some trade =>
      let h := candleHigh newCandle in
      let l := candleLow newCandle in
      if (h >= t_sl trade)%js then
        settle s symbol trade LOSS (-1) (t_sl trade)
      else if (l <= t_tp trade)%js then
        settle s symbol trade WIN RR (t_tp trade)
      else
        let ageMin := (inject_Z (now - t_openTime trade) / 60000)%Q in
        if Qle_bool (inject_Z MAX_HOLD) ageMin then
          settle s symbol trade EXPIRED (-0.15) (candleClose newCandle)
        else (Ok None, s)
  end.

Inductive HoldReason : Type :=
  | OutsideSession (hour : option Z)
  | Cooldown (waitMin : option Z)
  | OpenTradeHeld (t : Trade)
  | MacroBullish
  | TrendNotBearish (trend : Trend)
  | NoSetup.

Inductive Signal : Type :=
  | HOLD (reason : HoldReason)
  | SELL (signal : Setup) (trade : Trade) (trend5m : Trend).

Section Lifecycle.

Variable lib : Indicators.

(** [generateSignal] *)
Definition generateSignal (s : Engine) (symbol : string) (currentPrice : Q)
    (ts : Z) : Signal * Engine :=
  if negb (isScalpSession ts) then (HOLD (OutsideSession (getUTCHours ts)), s)
  else
    let cooldownMs := (COOLDOWN * 60000)%Z in
    if (ts - default 0 (lastSignalTs s !! symbol) <? cooldownMs)%Z then
      let waitMin :=
        (λ last, ceil_div (cooldownMs - (ts - last)) 60000)
          <$> lastSignalTs s !! symbol in
      (HOLD (Cooldown waitMin), s)
    else
      match open_trade s symbol with
      | Some t => (HOLD (OpenTradeHeld t), s)
      | None =>
          let macro := get1hMacro lib s symbol in
          if decide (macro = BULLISH) then (HOLD MacroBullish, s)
          else
            let trend := get5mTrend lib s symbol in
            if decide (trend ≠ BEARISH) then (HOLD (TrendNotBearish trend), s)
            else
              match getSellSignal lib s symbol with
              | None => (HOLD NoSetup, s)
              | Some sig =>
                  let trade :=
                    {| t_symbol := symbol;
                       t_entryPrice := currentPrice;
                       t_sl := sig_sl sig;
                       t_tp := sig_tp sig;
                       t_risk := sig_risk sig;
                       t_rr := RR;
                       t_confidence := sig_confidence sig;
                       t_atr := sig_atr sig;
                       t_openTime := ts;
                       t_reasons := sig_reasons sig |} in
                  (SELL sig trade trend,
                   {| candles1m := candles1m s; candles5m := candles5m s;
                      candles1h := candles1h s;
                      openTrade := <[symbol := Some trade]> (openTrade s);
                      lastSignalTs := <[symbol := ts]> (lastSignalTs s);
                      stats := stats s |})
              end
      end.

(** ** Runs of the engine *)

Inductive Op : Type :=
  | OpGenerate (symbol : string) (currentPrice : Q) (ts : Z)
  | OpResolve (symbol : string) (newCandle : Candle) (now : Z)
  | OpLoad1m (symbol : string) (candles : list Candle)
  | OpLoad5m (symbol : string) (candles : list Candle)
  | OpLoad1h (symbol : string) (candles : list Candle)
  | OpPush1m (symbol : string) (candle : Candle)
  | OpPush5m (symbol : string) (candle : Candle).

(** What a call gave back to its caller. *)
Inductive Event : Type :=
  | EvSignal (symbol : string) (ts : Z) (r : Signal)
  | EvResolve (symbol : string) (r : res (option Outcome))
  | EvFeed.

Definition step (s : Engine) (op : Op) : Event * Engine :=
  match op with
  | OpGenerate symbol currentPrice ts =>
      let '(r, s') := generateSignal s symbol currentPrice ts in
      (EvSignal symbol ts r, s')
  | OpResolve symbol newCandle now =>
      let '(r, s') := resolveOpenTrade s symbol newCandle now in
      (EvResolve symbol r, s')
  | OpLoad1m symbol candles => (EvFeed, load1mCandles s symbol candles)
  | OpLoad5m symbol candles => (EvFeed, load5mCandles s symbol candles)
  | OpLoad1h symbol candles => (EvFeed, load1hCandles s symbol candles)
  | OpPush1m symbol candle => (EvFeed, push1mCandle s symbol candle)
  | OpPush5m symbol candle => (EvFeed, push5mCandle s symbol candle)
  end.

(** The events of a run, oldest first, and the engine it leaves. *)
Fixpoint run (s : Engine) (ops : list Op) : list Event * Engine :=
  match ops with
  | [] => ([], s)
  | op :: rest =>
      let '(ev, s1) := step s op in
      let '(evs, s2) := run s1 rest in
      (ev :: evs, s2)
  end.

End Lifecycle.

(** ** A worked scenario

    Bars as [scalp_index.js] builds them (every value under both names), a
    fixed table standing for the indicator package, and the engines the
    examples below start from. *)

Module Scenario.

Definition bar (high low close : Q) : Candle :=
  {| c_high := Num high; c_h := Num high;
     c_low := Num low; c_l := Num low;
     c_close := Num close; c_c := Num close |}.

Definition XAU : string := "XAU/USD".

(** Thirty 1-minute bars topping at 100.4, the last closing lower. *)
Definition bars1m : list Candle :=
  replicate 29 (bar 100.4 99.6 99.9) ++ [bar 100.1 99.4 99.5].

(** Sixty 5-minute bars below the moving averages. *)
Definition bars5m : list Candle := replicate 60 (bar 98.5 97.5 98).

(** Indicator readings of a pullback that tops just under a falling
    EMA21, in a bearish 5-minute stack. *)
Definition table : Indicators :=
  {| EMA := λ _ period,
       match period with
       | 8 => Ok [Num 100.2; Num 100]
       | 9 => Ok [Num 99]
       | 21 => Ok [Num 100.6; Num 100.5]
       | 50 => Ok [Num 101]
       | _ => Throw
       end%nat;
     RSI := λ _ _, Ok [Num 70; Num 62];
     ATR := λ _ _ _ _, Ok [Num 1];
     Stochastic := λ _ _ _ _ _,
       Ok [ {| st_k := Num 80; st_d := Num 78 |};
            {| st_k := Num 70; st_d := Num 75 |} ];
     ADX := λ _ _ _ _, Ok [ {| adx := Num 30 |} ];
     MACD := λ _ _ _ _,
       Ok [ {| histogram := Num (-0.1) |}; {| histogram := Num (-0.2) |} ] |}.


(** Tuesday 2 January 2024, 12:30 UTC, and 14:00 UTC the same day. *)
Definition tuesday_1230 : Z := 1704198600000.
Definition tuesday_1400 : Z := 1704204000000.

(** Started as [scalp_index.js] starts the engine. *)
Definition warm : Engine :=
  load5mCandles (load1mCandles constructor XAU bars1m) XAU bars5m.

(** Fed bar by bar only: [load1mCandles] was never called. *)
Definition pushed : Engine :=
  load5mCandles (foldl (λ s c, push1mCandle s XAU c) constructor bars1m)
    XAU bars5m.


(** One win and seven losses on the books. *)
Definition tally_1_7 : Engine :=
  with_stats constructor
    {| wins := 1; losses := 7; expired := 0; totalR := 1.8 - 7;
       bySymbol := {[ XAU := {| ss_wins := 1; ss_losses := 7;
                                ss_totalR := 1.8 - 7 |} ]} |}.

(** [warm] after its first signal. *)
Definition in_trade : Engine :=
  snd (generateSignal table warm XAU 99.5 tuesday_1230).

(** A bar through both the stop (100.5) and the target (97.7) of that
    trade, and one that touches neither. *)
Definition wide_bar : Candle := bar 101 97 99.
Definition quiet_bar : Candle := bar 100 98 99.

(** One pass of the polling loop of [scalp_index.js] at time [ts]:
    refresh the 1-minute buffer, offer the latest bar to the open trade,
    ask for a signal at the latest close. *)
Definition poll (ts : Z) : list Op :=
  [ OpLoad1m XAU bars1m;
    OpResolve XAU (bar 100.1 99.4 99.5) ts;
    OpGenerate XAU 99.5 ts ].

(** Two passes a minute apart. *)
Definition two_polls : list Op :=
  poll tuesday_1230 ++ poll (tuesday_1230 + 60000).

(** A signal, a second request six minutes later, the stop hit a minute
    after that, and a third request. *)
Definition signal_stop_signal : list Op :=
  [ OpGenerate XAU 99.5 tuesday_1230;
    OpGenerate XAU 99.5 (tuesday_1230 + 6 * 60000);
    OpResolve XAU (bar 101 97 99) (tuesday_1230 + 7 * 60000);
    OpGenerate XAU 99.5 (tuesday_1230 + 8 * 60000) ].

(** Twenty-one minutes after the signal. *)
Definition tuesday_1251 : Z := tuesday_1230 + 21 * 60000.

End Scenario.

(** ** Predicates of the specification *)

(** The window of the specification: Monday to Friday, hour 12. *)
Definition nominal_window (ts : Z) : bool :=
  match getUTCDay ts, getUTCHours ts with
  | Some day, Some hour =>
      (1 <=? day)%Z && (day <=? 5)%Z && (12 <=? hour)%Z && (hour <? 13)%Z
  | _, _ => false
  end.




(** The pullback high sits in [EMA21, EMA21 + 1.0 ATR] and within
    0.4 ATR of EMA21. *)
Definition pullback_in_band (sig : Setup) : Prop :=
  ∃ ph e21 atr,
    sig_pullbackHigh sig = Some ph ∧ sig_ema21 sig = Some e21
    ∧ sig_atr sig = Some atr
    ∧ (e21 <= ph)%Q ∧ (ph <= e21 + 1.0 * atr)%Q
    ∧ (Qabs (ph - e21) <= 0.4 * atr)%Q.

(** stopLoss > entryPrice > takeProfit, and the risk is the distance from
    the entry to the stop. *)
Definition trade_levels_ordered (t : Trade) : Prop :=
  ∃ sl tp risk,
    t_sl t = Some sl ∧ t_tp t = Some tp ∧ t_risk t = Some risk
    ∧ (tp < t_entryPrice t)%Q ∧ (t_entryPrice t < sl)%Q
    ∧ (risk == sl - t_entryPrice t)%Q ∧ (0 < risk)%Q.

(** Runs made of [generateSignal] and [resolveOpenTrade] calls only. *)
Definition signal_or_resolve (op : Op) : bool :=
  match op with
  | OpGenerate _ _ _ | OpResolve _ _ _ => true
  | _ => false
  end.

(** The call handed the caller a new trade for [symbol]. *)
Definition opens (symbol : string) (ev : Event) : bool :=
  match ev with
  | EvSignal sym _ (SELL _ _ _) => bool_decide (sym = symbol)
  | _ => false
  end.

(** The call ended the trade of [symbol]: it returned an outcome, or
    raised, which [resolveOpenTrade] only does after clearing the slot. *)
Definition ends (symbol : string) (ev : Event) : bool :=
  match ev with
  | EvResolve sym (Ok (Some _)) | EvResolve sym Throw =>
      bool_decide (sym = symbol)
  | _ => false
  end.

(** The times of the Sells a run emitted for [symbol], oldest first. *)
Definition sell_times (symbol : string) (evs : list Event) : list Z :=
  omap (λ ev,
          match ev with
          | EvSignal sym ts (SELL _ _ _) =>
              if bool_decide (sym = symbol) then Some ts else None
          | _ => None
          end) evs.

(** Each time is at least the cooldown after the one before it, the first
    after [prev]. *)
Fixpoint spaced_after (prev : Z) (times : list Z) : Prop :=
  match times with
  | [] => True
  | t :: rest => (COOLDOWN * 60000 <= t - prev)%Z ∧ spaced_after t rest
  end.

(** The call is a [load1mCandles] of [symbol]. *)
Definition reloads (symbol : string) (op : Op) : bool :=
  match op with
  | OpLoad1m sym _ => bool_decide (sym = symbol)
  | _ => false
  end.

Definition count (f : Event → bool) (evs : list Event) : nat :=
  length (List.filter f evs).

(** How many trades the engine holds for [symbol]. *)
Definition live (s : Engine) (symbol : string) : nat :=
  match open_trade s symbol with Some _ => 1 | None => 0 end.

(** 1 when the outcome is of the kind counted, else 0. *)
Definition counts (kind outcome : OutcomeKind) : nat :=
  match kind, outcome with
  | WIN, WIN | LOSS, LOSS | EXPIRED, EXPIRED => 1
  | _, _ => 0
  end.

(** The per-symbol entry after an outcome of the given kind. *)
Definition bump (e : SymStats) (outcome : OutcomeKind) (rPnL : Q) : SymStats :=
  {| ss_wins := ss_wins e + counts WIN outcome;
     ss_losses := ss_losses e + counts LOSS outcome;
     ss_totalR := (ss_totalR e + rPnL)%Q |}.

(** The symbol's running total took the outcome's R. *)
Definition per_symbol_total_updated (s s' : Engine) (symbol : string)
    (o : Outcome) : Prop :=
  ∃ e e', bySymbol (stats s) !! symbol = Some e
          ∧ bySymbol (stats s') !! symbol = Some e'
          ∧ (ss_totalR e' == ss_totalR e + o_rPnL o)%Q.

(** The profit factor read as the exact quotient. *)
Definition profitFactor_exact (s : Engine) : Prop :=
  ∃ v, stat_value (profitFactor (getStats s)) = Some v
       ∧ (v == Q_of_nat (wins (stats s)) * RR / Q_of_nat (losses (stats s)))%Q.

(** ** Predicates of the further properties *)

(** Every buffer is within the capacity of its resolution. *)
Definition within_capacity (s : Engine) : Prop :=
  (∀ symbol buf, candles1m s !! symbol = Some buf → (length buf <= 100)%nat)
  ∧ (∀ symbol buf, candles5m s !! symbol = Some buf → (length buf <= 80)%nat)
  ∧ (∀ symbol buf, candles1h s !! symbol = Some buf → (length buf <= 100)%nat).

(** Milliseconds since midnight UTC. *)
Definition ms_of_day (ts : Z) : Z := (ts mod 86400000)%Z.

(** The call closed a trade of some symbol: it returned an outcome or
    raised. *)
Definition closing (ev : Event) : bool :=
  match ev with
  | EvResolve _ (Ok (Some _)) | EvResolve _ Throw => true
  | _ => false
  end.

(** Further example data. *)
Module Examples.

(** Indicator readings of a rising market: EMA21 above EMA50. *)
Definition rising : Indicators :=
  {| EMA := λ _ period,
       match period with
       | 21 => Ok [Num 101]
       | 50 => Ok [Num 100]
       | _ => Ok [Num 101.5]
       end%nat;
     RSI := λ _ _, Ok [Num 40; Num 55];
     ATR := λ _ _ _ _, Ok [Num 1];
     Stochastic := λ _ _ _ _ _, Ok [];
     ADX := λ _ _ _ _, Ok [ {| adx := Num 28 |} ];
     MACD := λ _ _ _ _, Ok [] |}.

(** Sixty 1-hour bars closing at 102. *)
Definition bars1h : list Candle := replicate 60 (Scenario.bar 102.5 101.5 102).

Definition hourly : Engine := load1hCandles constructor Scenario.XAU bars1h.


(** A bar under the stop and through the target of the scenario's trade. *)
Definition target_bar : Candle := Scenario.bar 100 97.5 97.6.

End Examples.


(** Trades closed according to the global counters. *)
Definition closed_total (st : Stats) : nat :=
  (wins st + losses st + expired st)%nat.

(** ** The polling loop of [scalp_index.js]

    The body of the [for (const symbol of SYMBOLS)] loop inside the timer of
    [run], as far as it drives the engine.  What the two fetches deliver,
    the clock readings and the latest close are inputs; Discord and MT5
    notifications, which do not come back into the engine, are left out. *)

(** A fetch delivers candles, delivers [null], or raises. *)
Inductive Fetch : Type :=
  | Fetched (candles : list Candle)
  | NoData
  | FetchFailed.

Record PollInput : Type := mkPollInput {
  in_c1m : Fetch;        (* await fetchLatest1m(symbol) *)
  in_price : Q;          (* latest.close, the number parseFloat read *)
  in_now : Z;            (* const now = Date.now() *)
  in_c5m : Fetch;        (* await fetch5m(symbol), when it is called *)
  in_resolveNow : Z;     (* Date.now() inside resolveOpenTrade *)
  in_ts : Z              (* Date.now(), the default ts of generateSignal *)
}.

(** The engine and the [buffer5m] table of last 5-minute refresh times;
    [null] is a missing key. *)
Record Agent : Type := mkAgent {
  engine : Engine;
  buffer5m : gmap string Z
}.

(** What one pass for one symbol got back from the engine. *)
Record PollOutput : Type := mkPollOutput {
  out_resolved : option (res (option Outcome));
  out_result : option Signal
}.

(** [!buffer5m[symbol] || now - buffer5m[symbol] > 4 * 60000] *)
Definition refresh_due (a : Agent) (symbol : string) (now : Z) : bool :=
  match buffer5m a !! symbol with
  | None => true
  | Some t => (t =? 0)%Z || (4 * 60000 <? now - t)%Z
  end.

Section Polling.

Variable lib : Indicators.

(** Resolve, then ask for a signal; a raise ends the pass in the [catch]. *)
Definition poll_engine (e : Engine) (table : gmap string Z) (symbol : string)
    (latest : Candle) (i : PollInput) : PollOutput * Agent :=
  let '(resolved, e1) := resolveOpenTrade e symbol latest (in_resolveNow i) in
  match resolved with
  | Throw =>
      ({| out_resolved := Some Throw; out_result := None |},
       {| engine := e1; buffer5m := table |})
  | Ok _ =>
      let '(result, e2) := generateSignal lib e1 symbol (in_price i) (in_ts i) in
      ({| out_resolved := Some resolved; out_result := Some result |},
       {| engine := e2; buffer5m := table |})
  end.

Definition poll_symbol (a : Agent) (symbol : string) (i : PollInput)
  : PollOutput * Agent :=
  let skipped := {| out_resolved := None; out_result := None |} in
  match in_c1m i with
  | FetchFailed | NoData => (skipped, a)
  | Fetched c1m =>
      match at_end c1m 1 with
      | None => (skipped, a)
      | Some latest =>
          let e1 := load1mCandles (engine a) symbol c1m in
          if refresh_due a symbol (in_now i) then
            match in_c5m i with
            | FetchFailed => (skipped, {| engine := e1; buffer5m := buffer5m a |})
            | NoData =>
                poll_engine e1 (<[symbol := in_now i]> (buffer5m a)) symbol
                  latest i
            | Fetched c5m =>
                poll_engine (load5mCandles e1 symbol c5m)
                  (<[symbol := in_now i]> (buffer5m a)) symbol latest i
            end
          else poll_engine e1 (buffer5m a) symbol latest i
      end
  end.

(** Passes one after the other, for whatever symbols. *)
Fixpoint poll_run (a : Agent) (passes : list (string * PollInput))
  : list PollOutput * Agent :=
  match passes with
  | [] => ([], a)
  | (symbol, i) :: rest =>
      let '(out, a1) := poll_symbol a symbol i in
      let '(outs, a2) := poll_run a1 rest in
      (out :: outs, a2)
  end.

End Polling.



Module Polls.

(** The agent after the warm-up of [run], and three passes a minute apart
    on an unchanged market. *)
Definition started : Agent := {| engine := Scenario.warm; buffer5m := ∅ |}.

Definition pass (ts : Z) : string * PollInput :=
  (Scenario.XAU,
   {| in_c1m := Fetched Scenario.bars1m; in_price := 99.5; in_now := ts;
      in_c5m := Fetched Scenario.bars5m; in_resolveNow := ts + 1500;
      in_ts := ts + 1500 |}).

Definition three_passes : list (string * PollInput) :=
  [ pass Scenario.tuesday_1230;
    pass (Scenario.tuesday_1230 + 60000);
    pass (Scenario.tuesday_1230 + 120000) ].

End Polls.
(** * Properties *)

(** ** Comparisons *)

Lemma Qlt_bool_iff (x y : Q) : Qlt_bool x y = true ↔ (x < y)%Q.
Proof.
  unfold Qlt_bool. rewrite negb_true_iff, <- not_true_iff_false, Qle_bool_iff.
  split; [apply Qnot_le_lt | apply Qlt_not_le].
Qed.

Lemma Qlt_bool_false (x y : Q) : Qlt_bool x y = false ↔ (y <= x)%Q.
Proof.
  unfold Qlt_bool. rewrite negb_false_iff. apply Qle_bool_iff.
Qed.

Lemma Qle_bool_false (x y : Q) : Qle_bool x y = false ↔ (y < x)%Q.
Proof.
  rewrite <- not_true_iff_false, Qle_bool_iff.
  split; [apply Qnot_le_lt | apply Qlt_not_le].
Qed.

Lemma js_lt_true (a b : num) :
  (a < b)%js = true ↔ ∃ x y, a = Some x ∧ b = Some y ∧ (x < y)%Q.
Proof.
  destruct a as [x|], b as [y|]; simpl; try rewrite Qlt_bool_iff;
    split; try discriminate; try (intros (? & ? & ? & ? & ?); discriminate).
  - eauto.
  - intros (? & ? & [= ->] & [= ->] & ?); done.
Qed.

Lemma js_le_true (a b : num) :
  (a <= b)%js = true ↔ ∃ x y, a = Some x ∧ b = Some y ∧ (x <= y)%Q.
Proof.
  destruct a as [x|], b as [y|]; simpl; try rewrite Qle_bool_iff;
    split; try discriminate; try (intros (? & ? & ? & ? & ?); discriminate).
  - eauto.
  - intros (? & ? & [= ->] & [= ->] & ?); done.
Qed.

Lemma js_not_false (a : num) :
  js_not a = false ↔ ∃ x, a = Some x ∧ ¬ (x == 0)%Q.
Proof.
  destruct a as [x|]; simpl.
  - rewrite <- not_true_iff_false, Qeq_bool_iff. split.
    + eauto.
    + intros (? & [= ->] & ?); done.
  - split; [done | intros (? & ? & ?); done].
Qed.

(** Unfolds the lifted operations on known numbers, keeping [Qabs] and the
    arithmetic of [Q] folded for [lra]. *)
Ltac js_unfold H :=
  unfold js_gt, js_ge, js_lt, js_le, js_abs, js_sub, js_add, js_mul,
    js_lift2, Num in H;
  cbn [fmap option_fmap option_map] in H.

(** ** Session gate *)

Lemma getUTCDay_range (ts : Z) (day : Z) :
  getUTCDay ts = Some day → (0 <= day < 7)%Z.
Proof.
  unfold getUTCDay. destruct (valid_date ts); [|done].
  intros [= <-]. apply Z.mod_pos_bound. lia.
Qed.

(** The Monday and Friday rules of [isScalpSession] never decide: within
    the hour they guard, the last line answers the same. *)
Lemma isScalpSession_nominal (ts : Z) : isScalpSession ts = nominal_window ts.
Proof.
  unfold isScalpSession, nominal_window, HOUR_START, HOUR_END.
  destruct (getUTCDay ts) as [day|] eqn:Hd.
  - apply getUTCDay_range in Hd.
    destruct (getUTCHours ts) as [hour|]; simpl.
    + destruct (day =? 0)%Z eqn:?, (day =? 6)%Z eqn:?, (day =? 1)%Z eqn:?,
        (day =? 5)%Z eqn:?, (hour <? 10)%Z eqn:?, (13 <=? hour)%Z eqn:?,
        (12 <=? hour)%Z eqn:?, (hour <? 13)%Z eqn:?,
        (1 <=? day)%Z eqn:?, (day <=? 5)%Z eqn:?; simpl; try reflexivity; lia.
    + destruct (day =? 0)%Z, (day =? 6)%Z, (day =? 1)%Z, (day =? 5)%Z;
        reflexivity.
  - unfold getUTCDay, getUTCHours in *.
    destruct (valid_date ts); [done | reflexivity].
Qed.

(** C6. Outside Monday to Friday, 12:00 to 13:00 UTC, the session check
    fails and [generateSignal] answers Hold with the outside-session reason,
    leaving the engine as it was: the Monday and Friday rules cannot open
    the window any further. *)
Theorem generateSignal_outside_session (lib : Indicators) (s : Engine)
    (symbol : string) (currentPrice : Q) (ts : Z) :
  nominal_window ts = false →
  isScalpSession ts = false
  ∧ generateSignal lib s symbol currentPrice ts
    = (HOLD (OutsideSession (getUTCHours ts)), s).
Proof.
  intros Hout. rewrite <- isScalpSession_nominal in Hout.
  split; [exact Hout|]. unfold generateSignal. by rewrite Hout.
Qed.

Lemma generateSignal_outside_session_witness :
  nominal_window Scenario.tuesday_1400 = false
  ∧ isScalpSession Scenario.tuesday_1400 = false
  ∧ generateSignal Scenario.table Scenario.warm Scenario.XAU 99.5
      Scenario.tuesday_1400
    = (HOLD (OutsideSession (getUTCHours Scenario.tuesday_1400)), Scenario.warm).
Proof.
  split; [reflexivity|].
  apply (generateSignal_outside_session Scenario.table Scenario.warm
           Scenario.XAU 99.5 Scenario.tuesday_1400).
  reflexivity.
Defined.

(** A Sell is only ever emitted inside the window. *)
Lemma generateSignal_sell_in_session (lib : Indicators) (s s' : Engine)
    (symbol : string) (currentPrice : Q) (ts : Z) sig trade trend :
  generateSignal lib s symbol currentPrice ts = (SELL sig trade trend, s') →
  nominal_window ts = true.
Proof.
  rewrite <- isScalpSession_nominal. unfold generateSignal.
  destruct (isScalpSession ts); [done | discriminate].
Qed.

(** ** Trend filters *)



(** X26. The 5-minute filter has no bullish answer: whatever the candles
    and whatever the indicator package returns, [get5mTrend] answers
    Neutral or Bearish. *)
Lemma get5mTrend_not_bullish (lib : Indicators) (s : Engine) (symbol : string) :
  get5mTrend lib s symbol ≠ BULLISH.
Proof.
  unfold get5mTrend, trend_body.
  destruct (candles5m s !! symbol) as [c5|]; [|done].
  destruct (length c5 <? 55)%nat; [done|]. simpl.
  destruct (EMA lib _ 9); [|discriminate].
  destruct (EMA lib _ 21); [|discriminate].
  destruct (EMA lib _ 50); [|discriminate].
  destruct (ADX lib _ _ _ 14); [|discriminate].
  simpl. repeat case_match; discriminate.
Qed.



(** ** Stats report *)

Lemma Q_of_nat_nonneg (n : nat) : (0 <= Q_of_nat n)%Q.
Proof.
  unfold Q_of_nat. change 0%Q with (inject_Z 0). rewrite <- Zle_Qle. lia.
Qed.

Lemma Q_of_nat_pos (n : nat) : (0 < n)%nat → (0 < Q_of_nat n)%Q.
Proof.
  intros Hn. unfold Q_of_nat. change 0%Q with (inject_Z 0).
  rewrite <- Zlt_Qlt. lia.
Qed.

(** Two decimals of a non-negative number are within half a hundredth. *)
Lemma toFixed_2_near (x : Q) :
  (0 <= x)%Q → (Qabs (inject_Z (toFixed 2 x) / 100 - x) <= 0.005)%Q.
Proof.
  intros Hx. unfold toFixed.
  assert (Hneg : Qlt_bool x 0 = false) by (by apply Qlt_bool_false).
  rewrite Hneg.
  change (inject_Z (10 ^ Z.of_nat 2)) with 100%Q.
  set (y := (Qabs x * 100 + 0.5)%Q).
  assert (Hy : (y == x * 100 + 0.5)%Q).
  { unfold y. by rewrite (Qabs_pos x Hx). }
  pose proof (Qfloor_le y) as Hlo.
  pose proof (Qlt_floor y) as Hhi.
  rewrite inject_Z_plus in Hhi. change (inject_Z 1) with 1%Q in Hhi.
  apply Qabs_Qle_condition.
  set (n := inject_Z (Qfloor y)) in *.
  assert (Hdiv : (n / 100 == n * 0.01)%Q) by (field).
  rewrite Hdiv. split; lra.
Qed.

(** C10, as the code has it. With no closed trade [winRate] is the string
    '0'; with no loss [profitFactor] is the string '∞'; with a loss it is a
    number printed with two decimals, within 0.005 of wins × RR / losses.
    [getStats] is total: no state makes it fail. *)
Theorem getStats_ratios (s : Engine) :
  ((wins (stats s) + losses (stats s) = 0)%nat → winRate (getStats s) = Zero)
  ∧ (losses (stats s) = 0%nat → profitFactor (getStats s) = Infinity)
  ∧ ((0 < losses (stats s))%nat →
     let exact :=
       (Q_of_nat (wins (stats s)) * RR / Q_of_nat (losses (stats s)))%Q in
     ∃ hundredths,
       profitFactor (getStats s) = Fixed 2 hundredths
       ∧ (Qabs (inject_Z hundredths / 100 - exact) <= 0.005)%Q).
Proof.
  unfold getStats. cbn [winRate profitFactor]. split; [|split].
  - by intros ->.
  - by intros ->.
  - intros Hl. cbn zeta.
    destruct (Nat.ltb_spec 0 (losses (stats s))); [|lia].
    eexists. split; [reflexivity|].
    apply toFixed_2_near.
    apply Qle_shift_div_l; [by apply Q_of_nat_pos|].
    pose proof (Q_of_nat_nonneg (wins (stats s))). unfold RR. nra.
Qed.

Lemma getStats_ratios_witness :
  winRate (getStats constructor) = Zero
  ∧ profitFactor (getStats constructor) = Infinity
  ∧ ∃ hundredths,
      profitFactor (getStats Scenario.tally_1_7) = Fixed 2 hundredths
      ∧ (Qabs (inject_Z hundredths / 100 - Q_of_nat 1 * RR / Q_of_nat 7)
         <= 0.005)%Q.
Proof.
  pose proof (getStats_ratios constructor) as (Hw & Hp & _).
  pose proof (getStats_ratios Scenario.tally_1_7) as (_ & _ & Hq).
  split; [apply Hw; reflexivity|].
  split; [apply Hp; reflexivity|].
  apply Hq. simpl. lia.
Defined.

(** One win and seven losses print as '0.26'; the quotient is 9/35. *)
Lemma getStats_profitFactor_rounded :
  (0 < losses (stats Scenario.tally_1_7))%nat
  ∧ profitFactor (getStats Scenario.tally_1_7) = Fixed 2 26
  ∧ ¬ profitFactor_exact Scenario.tally_1_7.
Proof.
  split; [simpl; lia|]. split; [reflexivity|].
  intros (v & Hv & Heq). vm_compute in Hv. injection Hv as <-.
  vm_compute in Heq. discriminate.
Qed.

(** ** Resolving a trade *)

Lemma open_trade_Some (s : Engine) (symbol : string) (t : Trade) :
  open_trade s symbol = Some t ↔ openTrade s !! symbol = Some (Some t).
Proof.
  unfold open_trade. destruct (openTrade s !! symbol) as [[?|]|]; naive_solver.
Qed.

Lemma open_trade_close (s : Engine) (symbol : string) :
  open_trade (close_trade s symbol) symbol = None.
Proof.
  unfold open_trade, close_trade; simpl. by rewrite lookup_insert_eq.
Qed.

(** What [settle] does when the symbol has its stats entry. *)
Lemma settle_recorded (s : Engine) (symbol : string) (trade : Trade)
    (kind : OutcomeKind) (rPnL : Q) (closePrice : num) (e : SymStats) :
  bySymbol (stats s) !! symbol = Some e →
  ∃ s', settle s symbol trade kind rPnL closePrice
        = (Ok (Some {| o_trade := trade; o_result := kind; o_rPnL := rPnL;
                       o_closePrice := closePrice |}), s')
        ∧ openTrade s' = <[symbol := None]> (openTrade s)
        ∧ lastSignalTs s' = lastSignalTs s.
Proof.
  intros He. unfold settle, _recordResult; simpl.
  destruct kind; rewrite ?He; simpl; eauto.
Qed.

(** Whatever [settle] returns, the slot is cleared. *)
Lemma settle_clears (s : Engine) (symbol : string) (trade : Trade)
    (kind : OutcomeKind) (rPnL : Q) (closePrice : num) :
  openTrade (snd (settle s symbol trade kind rPnL closePrice))
  = <[symbol := None]> (openTrade s).
Proof.
  unfold settle, _recordResult; simpl.
  destruct kind; simpl; try done; by destruct (bySymbol (stats s) !! symbol).
Qed.

(** With the per-symbol stats entry in place, as [load1mCandles] creates
    it: a candle whose high is at or above the stop and whose low is at or
    below the target closes the open trade as a Loss, never a Win: R = -1,
    close price the stop, slot cleared.  High and low are the values the
    engine reads from the candle. *)
Theorem resolveOpenTrade_stop_before_target (s : Engine) (symbol : string)
    (trade : Trade) (newCandle : Candle) (now : Z) (e : SymStats)
    (high low stopLoss takeProfit : Q) :
  open_trade s symbol = Some trade →
  bySymbol (stats s) !! symbol = Some e →
  t_sl trade = Some stopLoss → t_tp trade = Some takeProfit →
  candleHigh newCandle = Some high → candleLow newCandle = Some low →
  (stopLoss <= high)%Q → (low <= takeProfit)%Q →
  ∃ s', resolveOpenTrade s symbol newCandle now
        = (Ok (Some {| o_trade := trade; o_result := LOSS; o_rPnL := -1;
                       o_closePrice := Some stopLoss |}), s')
        ∧ openTrade s' !! symbol = Some None
        ∧ open_trade s' symbol = None.
Proof.
  intros Hopen He Hsl _ Hhigh _ Hstop _. unfold resolveOpenTrade.
  assert (Hfirst : (candleHigh newCandle >= t_sl trade)%js = true).
  { rewrite Hhigh, Hsl. by apply Qle_bool_iff. }
  rewrite Hopen, Hfirst, Hsl.
  destruct (settle_recorded s symbol trade LOSS (-1) (Some stopLoss) e He)
    as (s' & -> & Hslot & _).
  exists s'. split; [done|].
  unfold open_trade. rewrite Hslot, lookup_insert_eq. done.
Qed.

Lemma resolveOpenTrade_stop_before_target_witness :
  ∃ trade s',
    open_trade Scenario.in_trade Scenario.XAU = Some trade
    ∧ resolveOpenTrade Scenario.in_trade Scenario.XAU Scenario.wide_bar
        (Scenario.tuesday_1230 + 60000)
      = (Ok (Some {| o_trade := trade; o_result := LOSS; o_rPnL := -1;
                     o_closePrice := Some 100.50%Q |}), s')
    ∧ open_trade s' Scenario.XAU = None.
Proof.
  destruct (open_trade Scenario.in_trade Scenario.XAU) as [trade|] eqn:Ht;
    [|vm_compute in Ht; discriminate].
  assert (He : bySymbol (stats Scenario.in_trade) !! Scenario.XAU
               = Some {| ss_wins := 0; ss_losses := 0; ss_totalR := 0 |})
    by (vm_compute; reflexivity).
  assert (Hsl : t_sl trade = Some 100.50%Q)
    by (vm_compute in Ht; injection Ht as <-; reflexivity).
  assert (Htp : t_tp trade = Some 97.70000%Q)
    by (vm_compute in Ht; injection Ht as <-; reflexivity).
  destruct (resolveOpenTrade_stop_before_target Scenario.in_trade Scenario.XAU
              trade Scenario.wide_bar (Scenario.tuesday_1230 + 60000) _
              101 97 100.50 97.70000 Ht He Hsl Htp eq_refl eq_refl)
    as (s' & Hr & _ & Hc); [vm_compute; discriminate..|].
  exists trade, s'.
  split; [reflexivity|]. split; [exact Hr | exact Hc].
Defined.

(** ** Recording an outcome *)

(** [_recordResult] on a symbol that has its entry: the global counter of
    the outcome's kind and the global total move; the symbol's entry moves
    for a win or a loss and stays for an expiry. *)
Lemma _recordResult_effect (st : Stats) (symbol : string)
    (outcome : OutcomeKind) (rPnL : Q) (e : SymStats) :
  bySymbol st !! symbol = Some e →
  _recordResult st symbol outcome rPnL
  = (Ok (),
     {| wins := wins st + counts WIN outcome;
        losses := losses st + counts LOSS outcome;
        expired := expired st + counts EXPIRED outcome;
        totalR := (totalR st + rPnL)%Q;
        bySymbol :=
          match outcome with
          | EXPIRED => bySymbol st
          | _ => <[symbol := bump e outcome rPnL]> (bySymbol st)
          end |}).
Proof.
  intros He. unfold _recordResult, bump.
  destruct outcome; simpl; rewrite ?He, ?Nat.add_0_r, ?Nat.add_1_r; done.
Qed.

(** A win or a loss on a symbol without entry raises. *)
Lemma _recordResult_raises (st : Stats) (symbol : string)
    (outcome : OutcomeKind) (rPnL : Q) :
  bySymbol st !! symbol = None → outcome ≠ EXPIRED →
  fst (_recordResult st symbol outcome rPnL) = Throw.
Proof.
  intros He Hk. unfold _recordResult. destruct outcome; simpl; rewrite ?He; done.
Qed.

(** C2, what the code does. A symbol fed through [push1mCandle] only never
    got its per-symbol stats entry.  The engine opens a trade for it all the
    same, and the candle whose high is at or above the stop and whose low
    is at or below the target returns no Loss: the call clears the slot,
    counts the loss globally and then raises. *)
Theorem resolveOpenTrade_raises_without_entry :
  let opened :=
    snd (generateSignal Scenario.table Scenario.pushed Scenario.XAU 99.5
           Scenario.tuesday_1230) in
  let closed :=
    resolveOpenTrade opened Scenario.XAU Scenario.wide_bar
      (Scenario.tuesday_1230 + 60000) in
  (∃ trade,
     open_trade opened Scenario.XAU = Some trade
     ∧ (candleHigh Scenario.wide_bar >= t_sl trade)%js = true
     ∧ (candleLow Scenario.wide_bar <= t_tp trade)%js = true)
  ∧ bySymbol (stats opened) !! Scenario.XAU = None
  ∧ fst closed = Throw
  ∧ open_trade (snd closed) Scenario.XAU = None
  ∧ losses (stats (snd closed)) = 1%nat.
Proof.
  intros opened closed. split.
  - destruct (open_trade opened Scenario.XAU) as [trade|] eqn:Ht;
      [|vm_compute in Ht; discriminate].
    exists trade. split; [reflexivity|].
    vm_compute in Ht. injection Ht as <-. split; reflexivity.
  - split; [vm_compute; reflexivity|].
    split; [vm_compute; reflexivity|].
    split; vm_compute; reflexivity.
Qed.

Lemma settle_returns (s s' : Engine) (symbol : string) (trade : Trade)
    (kind : OutcomeKind) (rPnL : Q) (closePrice : num) (o : Outcome) :
  settle s symbol trade kind rPnL closePrice = (Ok (Some o), s') →
  o = {| o_trade := trade; o_result := kind; o_rPnL := rPnL;
         o_closePrice := closePrice |}
  ∧ _recordResult (stats s) symbol kind rPnL = (Ok (), stats s').
Proof.
  unfold settle. simpl.
  destruct (_recordResult (stats s) symbol kind rPnL) as [[[]|] st] eqn:Hr;
    simpl; [|discriminate].
  intros [= <- <-]. done.
Qed.

(** Every outcome [resolveOpenTrade] returns went through [_recordResult]
    with the outcome's own kind and R. *)
Lemma resolveOpenTrade_returns (s s' : Engine) (symbol : string)
    (newCandle : Candle) (now : Z) (o : Outcome) :
  resolveOpenTrade s symbol newCandle now = (Ok (Some o), s') →
  open_trade s symbol = Some (o_trade o)
  ∧ _recordResult (stats s) symbol (o_result o) (o_rPnL o) = (Ok (), stats s').
Proof.
  unfold resolveOpenTrade.
  destruct (open_trade s symbol) as [trade|]; [|discriminate].
  repeat case_match; try discriminate;
    intros Hs; apply settle_returns in Hs as [-> Hr]; done.
Qed.

(** C8, as the code has it. When [resolveOpenTrade] returns an outcome, the
    global counter of its kind goes up by one and the global total takes
    its R; the symbol's entry has its wins or losses counter and its total
    moved for a Win or a Loss, and is left as it was for an Expired: the
    per-symbol entries have no expired counter. *)
Theorem resolveOpenTrade_records (s s' : Engine) (symbol : string)
    (newCandle : Candle) (now : Z) (o : Outcome) :
  resolveOpenTrade s symbol newCandle now = (Ok (Some o), s') →
  wins (stats s') = (wins (stats s) + counts WIN (o_result o))%nat
  ∧ losses (stats s') = (losses (stats s) + counts LOSS (o_result o))%nat
  ∧ expired (stats s') = (expired (stats s) + counts EXPIRED (o_result o))%nat
  ∧ totalR (stats s') = (totalR (stats s) + o_rPnL o)%Q
  ∧ match o_result o with
    | EXPIRED => bySymbol (stats s') = bySymbol (stats s)
    | kind =>
        ∃ e, bySymbol (stats s) !! symbol = Some e
             ∧ bySymbol (stats s')
               = <[symbol := bump e kind (o_rPnL o)]> (bySymbol (stats s))
    end.
Proof.
  intros Hres. apply resolveOpenTrade_returns in Hres as [_ Hrec].
  destruct (bySymbol (stats s) !! symbol) as [e|] eqn:He.
  - rewrite (_recordResult_effect _ _ _ _ e He) in Hrec.
    injection Hrec as <-. simpl. repeat split; try done.
    destruct (o_result o); eauto.
  - destruct (o_result o) eqn:Hk.
    + pose proof (_recordResult_raises (stats s) symbol WIN (o_rPnL o) He) as Hx.
      rewrite Hrec in Hx. by specialize (Hx ltac:(done)).
    + pose proof (_recordResult_raises (stats s) symbol LOSS (o_rPnL o) He) as Hx.
      rewrite Hrec in Hx. by specialize (Hx ltac:(done)).
    + unfold _recordResult in Hrec. injection Hrec as <-. simpl.
      rewrite ?Nat.add_0_r, ?Nat.add_1_r. done.
Qed.

Lemma resolveOpenTrade_records_witness :
  ∃ o s',
    resolveOpenTrade Scenario.in_trade Scenario.XAU Scenario.wide_bar
      (Scenario.tuesday_1230 + 60000) = (Ok (Some o), s')
    ∧ o_result o = LOSS
    ∧ losses (stats s') = 1%nat
    ∧ totalR (stats s') = (totalR (stats Scenario.in_trade) + o_rPnL o)%Q.
Proof.
  destruct (resolveOpenTrade Scenario.in_trade Scenario.XAU Scenario.wide_bar
              (Scenario.tuesday_1230 + 60000)) as [[[o|]|] s'] eqn:Hr;
    [|vm_compute in Hr; discriminate..].
  assert (Hk : o_result o = LOSS).
  { vm_compute in Hr. injection Hr as <- <-. reflexivity. }
  exists o, s'. split; [reflexivity|]. split; [exact Hk|].
  destruct (resolveOpenTrade_records _ _ _ _ _ _ Hr) as (_ & Hl & _ & Ht & _).
  rewrite Hk in Hl. split; [rewrite Hl; vm_compute; reflexivity | exact Ht].
Defined.

(** An expiry leaves the symbol's running total where it was: the R of
    -0.15 reaches the global total only. *)
Lemma resolveOpenTrade_expired_per_symbol :
  ∃ o s',
    resolveOpenTrade Scenario.in_trade Scenario.XAU Scenario.quiet_bar
      Scenario.tuesday_1251 = (Ok (Some o), s')
    ∧ o_result o = EXPIRED
    ∧ bySymbol (stats s') !! Scenario.XAU
      = bySymbol (stats Scenario.in_trade) !! Scenario.XAU
    ∧ ¬ per_symbol_total_updated Scenario.in_trade s' Scenario.XAU o.
Proof.
  destruct (resolveOpenTrade Scenario.in_trade Scenario.XAU Scenario.quiet_bar
              Scenario.tuesday_1251) as [[[o|]|] s'] eqn:Hr;
    [|vm_compute in Hr; discriminate..].
  exists o, s'. vm_compute in Hr. injection Hr as <- <-.
  split; [reflexivity|]. split; [reflexivity|]. split; [reflexivity|].
  intros (e & e' & He & He' & Hsum).
  vm_compute in He, He'. injection He as <-. injection He' as <-.
  vm_compute in Hsum. discriminate.
Qed.

(** ** Setup detector *)

(** [slice(-8, -1)] of eight or more bars is the seven bars before the
    last one. *)
Lemma lookback_previous_seven {A} (c1 : list A) :
  (8 <= length c1)%nat →
  ∃ older cur, c1 = older ++ slice_neg 8 1 c1 ++ [cur]
               ∧ length (slice_neg 8 1 c1) = 7%nat.
Proof.
  intros Hlen. unfold slice_neg.
  replace (length c1 - 1 - (length c1 - 8))%nat with 7%nat by lia.
  set (k := (length c1 - 8)%nat).
  assert (Hd : length (drop k c1) = 8%nat) by (rewrite length_drop; lia).
  destruct (drop k c1) as [|x0 [|x1 [|x2 [|x3 [|x4 [|x5 [|x6 [|x7 [|]]]]]]]]]
    eqn:Hdrop; try discriminate.
  exists (take k c1), x7. split; [|done].
  rewrite <- (take_drop k c1) at 1. by rewrite Hdrop.
Qed.

Lemma lookback_length {A} (c1 : list A) :
  (30 <= length c1)%nat → length (slice_neg 8 1 c1) = 7%nat.
Proof.
  intros Hlen. destruct (lookback_previous_seven c1) as (? & ? & _ & ?);
    [lia | done].
Qed.

(** What holds of a setup [sell_decision] emits. *)
Lemma sell_decision_emits (c1 : list Candle) (closes : list num)
    (ema8 ema21 rsi atr : list num) (stoch : list StochRow)
    (macd : list MACDRow) (sig : Setup) :
  sell_decision c1 closes ema8 ema21 rsi atr stoch macd = Some sig →
  let price := mjoin (at_end closes 1) in
  let e21 := mjoin (at_end ema21 1) in
  let atrVal := mjoin (at_end atr 1) in
  let pullbackHigh := Math_max (candleHigh <$> slice_neg 8 1 c1) in
  let distToEMA := js_abs (pullbackHigh - e21)%js in
  let sl := (price + atrVal * Num ATR_MUL)%js in
  let risk := js_abs (price - sl)%js in
  (js_not atrVal = false ∧ (atrVal < Num 0.3)%js = false)
  ∧ ((distToEMA > atrVal * Num MAX_PB_ATR)%js = false
     ∧ (pullbackHigh > e21 + atrVal * Num 1.0)%js = false)
  ∧ (MIN_CONF <= sig_confidence sig <= 95)%Z
  ∧ ((risk <= Num 0)%js = false ∧ (risk > atrVal * Num 3)%js = false)
  ∧ (sig_price sig = price ∧ sig_sl sig = sl
     ∧ sig_tp sig = (price - risk * Num RR)%js ∧ sig_risk sig = risk)
  ∧ (sig_atr sig = atrVal ∧ sig_pullbackHigh sig = pullbackHigh
     ∧ sig_ema21 sig = e21).
Proof.
  unfold sell_decision. intros Hsig.
  repeat match type of Hsig with
    | (if ?b then _ else _) = _ => destruct b eqn:?; [discriminate|]
    | match ?o with Some _ => _ | None => _ end = _ =>
        destruct o eqn:?; [|discriminate]
    | (if ?b then _ else _) = _ => destruct b eqn:?; [|discriminate]
    end.
  injection Hsig as <-. simpl.
  repeat match goal with
    | H : _ || _ = false |- _ => apply orb_false_iff in H as [? ?]
    end.
  repeat split; try done.
  - by apply Z.ltb_ge.
  - apply Z.le_min_r.
Qed.

Lemma getSellSignal_emits (lib : Indicators) (s : Engine) (symbol : string)
    (sig : Setup) :
  getSellSignal lib s symbol = Some sig →
  ∃ c1 ema8 ema21 rsi atr stoch macd,
    let closes := candleClose <$> c1 in
    candles1m s !! symbol = Some c1 ∧ (30 <= length c1)%nat
    ∧ EMA lib closes 21 = Ok ema21
    ∧ ATR lib (candleHigh <$> c1) (candleLow <$> c1) closes 7 = Ok atr
    ∧ sell_decision c1 closes ema8 ema21 rsi atr stoch macd = Some sig.
Proof.
  unfold getSellSignal, signal_body.
  destruct (candles1m s !! symbol) as [c1|]; [|discriminate].
  destruct (length c1 <? 30)%nat eqn:Hlen; [discriminate|].
  apply Nat.ltb_ge in Hlen.
  destruct (EMA lib _ 8) as [ema8|] eqn:?; [|discriminate].
  destruct (EMA lib _ 21) as [ema21|] eqn:?; [|discriminate].
  destruct (RSI lib _ 7) as [rsi|] eqn:?; [|discriminate].
  destruct (ATR lib _ _ _ 7) as [atr|] eqn:?; [|discriminate].
  destruct (Stochastic lib _ _ _ 5 3) as [stoch|] eqn:?; [|discriminate].
  destruct (MACD lib _ 5 13 4) as [macd|] eqn:?; [|discriminate].
  simpl. intros Hsig.
  exists c1, ema8, ema21, rsi, atr, stoch, macd. done.
Qed.

(** The ATR of an emitted setup is a number, at least 0.3. *)
Lemma atr_gate (atrVal : num) :
  js_not atrVal = false → (atrVal < Num 0.3)%js = false →
  ∃ a, atrVal = Some a ∧ (0.3 <= a)%Q.
Proof.
  intros Hn Hlt. apply js_not_false in Hn as (a & -> & _).
  exists a. split; [done|]. simpl in Hlt. by apply Qlt_bool_false.
Qed.

(** C7, as the code has it. On every series for which [getSellSignal] emits
    a setup, the setup's pullback high is the largest high of the seven
    bars before the current one; when it and the EMA21 are numbers it lies
    within 0.4 ATR of the EMA21, on either side, and not above
    EMA21 + 1.0 ATR.  A pullback high outside that band gives no setup. *)
Theorem getSellSignal_pullback_band (lib : Indicators) (s : Engine)
    (symbol : string) (sig : Setup) :
  getSellSignal lib s symbol = Some sig →
  ∃ c1 ema21 atr,
    candles1m s !! symbol = Some c1
    ∧ length (slice_neg 8 1 c1) = 7%nat
    ∧ sig_pullbackHigh sig = Math_max (candleHigh <$> slice_neg 8 1 c1)
    ∧ EMA lib (candleClose <$> c1) 21 = Ok ema21
    ∧ sig_ema21 sig = mjoin (at_end ema21 1)
    ∧ sig_atr sig = Some atr ∧ (0.3 <= atr)%Q
    ∧ ∀ ph e21,
        sig_pullbackHigh sig = Some ph → sig_ema21 sig = Some e21 →
        (Qabs (ph - e21) <= 0.4 * atr)%Q ∧ (ph <= e21 + 1.0 * atr)%Q.
Proof.
  intros Hsig.
  apply getSellSignal_emits in Hsig
    as (c1 & ema8 & ema21 & rsi & atr & stoch & macd & Hc1 & Hlen & Hema & _
        & Hdec).
  apply sell_decision_emits in Hdec
    as ((Hn & Hlo) & (Hdist & Hover) & _ & _ & _ & (Hatr & Hph & He21)).
  destruct (atr_gate _ Hn Hlo) as (a & Ha & Hfloor).
  exists c1, ema21, a. rewrite Hatr, Hph, He21.
  split; [done|]. split; [by apply lookback_length|].
  do 5 (split; [done|]).
  intros ph e21 Hp He. rewrite Ha, Hp, He in Hdist, Hover.
  js_unfold Hdist. js_unfold Hover.
  apply Qlt_bool_false in Hdist, Hover. unfold MAX_PB_ATR in Hdist.
  split; lra.
Qed.

Lemma getSellSignal_pullback_band_witness :
  ∃ sig ph e21 atr,
    getSellSignal Scenario.table Scenario.warm Scenario.XAU = Some sig
    ∧ sig_pullbackHigh sig = Some ph ∧ sig_ema21 sig = Some e21
    ∧ sig_atr sig = Some atr
    ∧ (Qabs (ph - e21) <= 0.4 * atr)%Q ∧ (ph <= e21 + 1.0 * atr)%Q.
Proof.
  destruct (getSellSignal Scenario.table Scenario.warm Scenario.XAU)
    as [sig|] eqn:Hsig; [|vm_compute in Hsig; discriminate].
  destruct (getSellSignal_pullback_band _ _ _ _ Hsig)
    as (c1 & ema21 & atr & _ & _ & _ & _ & _ & Hatr & _ & Hband).
  destruct (sig_pullbackHigh sig) as [ph|] eqn:Hph;
    [|vm_compute in Hsig; injection Hsig as <-; discriminate].
  destruct (sig_ema21 sig) as [e21|] eqn:He;
    [|vm_compute in Hsig; injection Hsig as <-; discriminate].
  exists sig, ph, e21, atr.
  destruct (Hband ph e21 eq_refl eq_refl) as [Hnear Hcap].
  split; [reflexivity|]. split; [exact Hph|]. split; [exact He|].
  split; [exact Hatr|]. split; [exact Hnear | exact Hcap].
Defined.

(** The scenario's pullback tops at 100.4 under an EMA21 of 100.5, and the
    setup is emitted all the same. *)
Lemma getSellSignal_pullback_under_ema21 :
  ∃ sig,
    getSellSignal Scenario.table Scenario.warm Scenario.XAU = Some sig
    ∧ sig_pullbackHigh sig = Some 100.4%Q
    ∧ sig_ema21 sig = Some 100.5%Q
    ∧ ¬ pullback_in_band sig.
Proof.
  destruct (getSellSignal Scenario.table Scenario.warm Scenario.XAU)
    as [sig|] eqn:Hsig; [|vm_compute in Hsig; discriminate].
  exists sig. split; [reflexivity|].
  vm_compute in Hsig. injection Hsig as <-.
  split; [reflexivity|]. split; [reflexivity|].
  intros (ph & e21 & atr & [= <-] & [= <-] & _ & Hle & _).
  vm_compute in Hle. apply Hle. reflexivity.
Qed.

(** ** Signal generation *)

(** A Sell comes from the detector's setup and opens the trade built
    from it. *)
Lemma generateSignal_sell (lib : Indicators) (s s' : Engine) (symbol : string)
    (currentPrice : Q) (ts : Z) (sig : Setup) (trade : Trade) (trend : Trend) :
  generateSignal lib s symbol currentPrice ts = (SELL sig trade trend, s') →
  isScalpSession ts = true
  ∧ (COOLDOWN * 60000 <= ts - default 0 (lastSignalTs s !! symbol))%Z
  ∧ open_trade s symbol = None
  ∧ get1hMacro lib s symbol ≠ BULLISH
  ∧ get5mTrend lib s symbol = BEARISH
  ∧ getSellSignal lib s symbol = Some sig
  ∧ trade = {| t_symbol := symbol; t_entryPrice := currentPrice;
               t_sl := sig_sl sig; t_tp := sig_tp sig;
               t_risk := sig_risk sig; t_rr := RR;
               t_confidence := sig_confidence sig; t_atr := sig_atr sig;
               t_openTime := ts; t_reasons := sig_reasons sig |}
  ∧ openTrade s' = <[symbol := Some trade]> (openTrade s)
  ∧ lastSignalTs s' = <[symbol := ts]> (lastSignalTs s)
  ∧ stats s' = stats s
  ∧ candles1m s' = candles1m s ∧ candles5m s' = candles5m s
  ∧ candles1h s' = candles1h s.
Proof.
  unfold generateSignal.
  destruct (isScalpSession ts); [|discriminate]. simpl.
  destruct (_ <? _)%Z eqn:Hcool; [discriminate|]. apply Z.ltb_ge in Hcool.
  destruct (open_trade s symbol); [discriminate|].
  destruct (decide (get1hMacro lib s symbol = BULLISH)); [discriminate|].
  destruct (decide (get5mTrend lib s symbol ≠ BEARISH)) as [|Hb];
    [discriminate|].
  apply dec_stable in Hb.
  destruct (getSellSignal lib s symbol) as [sig0|]; [|discriminate].
  intros [= <- <- <- <-]. simpl. done.
Qed.

(** C3, as the code has it. The trade of a Sell takes its stop, target and
    risk from the setup, and the setup measures them from the last 1-minute
    close p, not from the entry: stop is the code's p + ATR * 1.0, risk the
    code's |p - stop|, target the code's p - risk * 1.8.  When p is a
    number all three are numbers, the risk is positive and
    stop > p > target.  The entry price is the caller's [currentPrice];
    stop > entry > target holds when that price is the close p. *)
Theorem generateSignal_trade_levels (lib : Indicators) (s s' : Engine)
    (symbol : string) (currentPrice : Q) (ts : Z) (sig : Setup)
    (trade : Trade) (trend : Trend) :
  generateSignal lib s symbol currentPrice ts = (SELL sig trade trend, s') →
  t_entryPrice trade = currentPrice
  ∧ t_sl trade = sig_sl sig ∧ t_tp trade = sig_tp sig
  ∧ t_risk trade = sig_risk sig ∧ t_atr trade = sig_atr sig
  ∧ ∃ c1 atr,
      candles1m s !! symbol = Some c1
      ∧ sig_price sig = mjoin (at_end (candleClose <$> c1) 1)
      ∧ sig_atr sig = Some atr ∧ (0.3 <= atr)%Q
      ∧ sig_sl sig = (sig_price sig + sig_atr sig * Num ATR_MUL)%js
      ∧ sig_risk sig = js_abs (sig_price sig - sig_sl sig)%js
      ∧ sig_tp sig = (sig_price sig - sig_risk sig * Num RR)%js
      ∧ ∀ p, sig_price sig = Some p →
          ∃ sl tp risk,
            t_sl trade = Some sl ∧ t_tp trade = Some tp
            ∧ t_risk trade = Some risk
            ∧ (0 < risk)%Q ∧ (tp < p)%Q ∧ (p < sl)%Q
            ∧ ((currentPrice == p)%Q →
               (tp < t_entryPrice trade)%Q ∧ (t_entryPrice trade < sl)%Q).
Proof.
  intros Hsell.
  apply generateSignal_sell in Hsell
    as (_ & _ & _ & _ & _ & Hsig & -> & _).
  cbn [t_entryPrice t_sl t_tp t_risk t_atr].
  do 5 (split; [reflexivity|]).
  apply getSellSignal_emits in Hsig
    as (c1 & ema8 & ema21 & rsi & atrs & stoch & macd & Hc1 & _ & _ & _ & Hdec).
  apply sell_decision_emits in Hdec
    as ((Hn & Hlo) & _ & _ & _ & (Hp & Hsl & Htp & Hrisk) & (Hatr & _)).
  destruct (atr_gate _ Hn Hlo) as (a & Ha & Hfloor).
  exists c1, a.
  split; [exact Hc1|]. split; [exact Hp|].
  split; [by rewrite Hatr|]. split; [exact Hfloor|].
  split; [by rewrite Hsl, Hp, Hatr|].
  split; [by rewrite Hrisk, Hsl, Hp|].
  split; [by rewrite Htp, Hrisk, Hp|].
  intros p Hprice. rewrite Hp in Hprice.
  rewrite Hsl, Htp, Hrisk, Hprice, Ha. unfold ATR_MUL, RR.
  assert (Habs : (Qabs (p - (p + a * 1.0)) == a * 1.0)%Q).
  { rewrite Qabs_neg by lra. lra. }
  eexists _, _, _. do 3 (split; [reflexivity|]).
  rewrite Habs. repeat split; try lra.
  all: intros Hcp; lra.
Qed.

Lemma generateSignal_trade_levels_witness :
  ∃ sig trade trend s',
    generateSignal Scenario.table Scenario.warm Scenario.XAU 99.5
      Scenario.tuesday_1230 = (SELL sig trade trend, s')
    ∧ t_entryPrice trade = 99.5%Q
    ∧ t_sl trade = sig_sl sig ∧ t_tp trade = sig_tp sig.
Proof.
  destruct (generateSignal Scenario.table Scenario.warm Scenario.XAU 99.5
              Scenario.tuesday_1230) as [[r|sig trade trend] s'] eqn:Hg;
    [vm_compute in Hg; discriminate|].
  exists sig, trade, trend, s'. split; [reflexivity|].
  destruct (generateSignal_trade_levels _ _ _ _ _ _ _ _ _ Hg)
    as (He & Hsl & Htp & _).
  split; [exact He|]. split; [exact Hsl | exact Htp].
Defined.

(** Called with a price of 100.6 while the last close is 99.5, the engine
    opens a trade whose entry is above its stop of 100.5. *)
Lemma generateSignal_entry_above_stop :
  ∃ sig trade trend s',
    generateSignal Scenario.table Scenario.warm Scenario.XAU 100.6
      Scenario.tuesday_1230 = (SELL sig trade trend, s')
    ∧ t_entryPrice trade = 100.6%Q
    ∧ ¬ trade_levels_ordered trade.
Proof.
  destruct (generateSignal Scenario.table Scenario.warm Scenario.XAU 100.6
              Scenario.tuesday_1230) as [[r|sig trade trend] s'] eqn:Hg;
    [vm_compute in Hg; discriminate|].
  exists sig, trade, trend, s'. split; [reflexivity|].
  vm_compute in Hg. injection Hg as <- <- <- <-.
  split; [reflexivity|].
  intros (sl & tp & risk & [= <-] & _ & _ & _ & Hlt & _).
  vm_compute in Hlt. discriminate.
Qed.

(** ** One trade per symbol *)

Lemma live_bound (s : Engine) (symbol : string) : (live s symbol <= 1)%nat.
Proof. unfold live. destruct (open_trade s symbol); lia. Qed.

Lemma live_other (s s' : Engine) (sym symbol : string) (v : option Trade) :
  openTrade s' = <[sym := v]> (openTrade s) → sym ≠ symbol →
  live s' symbol = live s symbol.
Proof.
  intros Hs Hne. unfold live, open_trade. by rewrite Hs, lookup_insert_ne.
Qed.

(** [generateSignal] answers Hold and changes nothing while the symbol has
    a trade open. *)
Lemma generateSignal_holds_while_open (lib : Indicators) (s : Engine)
    (symbol : string) (currentPrice : Q) (ts : Z) (t : Trade) :
  open_trade s symbol = Some t →
  ∃ reason, generateSignal lib s symbol currentPrice ts = (HOLD reason, s).
Proof.
  intros Hopen. unfold generateSignal.
  destruct (isScalpSession ts); simpl; [|eauto].
  destruct (_ <? _)%Z; [eauto|]. rewrite Hopen. eauto.
Qed.

(** [settle] never returns "still open". *)
Lemma settle_result (s : Engine) (symbol : string) (trade : Trade)
    (kind : OutcomeKind) (rPnL : Q) (closePrice : num) :
  fst (settle s symbol trade kind rPnL closePrice) = Throw
  ∨ ∃ o, fst (settle s symbol trade kind rPnL closePrice) = Ok (Some o).
Proof.
  unfold settle.
  destruct (_recordResult _ symbol kind rPnL) as [[[]|] st]; simpl; eauto.
Qed.

(** [resolveOpenTrade] either leaves the engine alone and reports nothing,
    or clears the slot of a trade that was open and reports an outcome or
    raises. *)
Lemma resolveOpenTrade_cases (s : Engine) (symbol : string)
    (newCandle : Candle) (now : Z) :
  resolveOpenTrade s symbol newCandle now = (Ok None, s)
  ∨ (is_Some (open_trade s symbol)
     ∧ openTrade (snd (resolveOpenTrade s symbol newCandle now))
       = <[symbol := None]> (openTrade s)
     ∧ (fst (resolveOpenTrade s symbol newCandle now) = Throw
        ∨ ∃ o, fst (resolveOpenTrade s symbol newCandle now) = Ok (Some o))).
Proof.
  unfold resolveOpenTrade.
  destruct (open_trade s symbol) as [trade|]; [|by left].
  repeat case_match; try (by left);
    right; (split; [eauto|]); (split; [apply settle_clears|apply settle_result]).
Qed.

(** Each call keeps the books: trades opened plus trades held before equal
    trades ended plus trades held after. *)
Lemma step_balance (lib : Indicators) (s : Engine) (op : Op) (symbol : string) :
  signal_or_resolve op = true →
  (Nat.b2n (opens symbol (fst (step lib s op))) + live s symbol
   = Nat.b2n (ends symbol (fst (step lib s op)))
     + live (snd (step lib s op)) symbol)%nat.
Proof.
  destruct op as [sym cp ts|sym c now| | | | |]; try discriminate; intros _;
    simpl.
  - destruct (generateSignal lib s sym cp ts) as [[r|sig trade trend] s']
      eqn:Hg; simpl.
    + assert (s' = s) as ->; [|done].
      unfold generateSignal in Hg.
      repeat case_match; simplify_eq; done.
    + apply generateSignal_sell in Hg
        as (_ & _ & Hnone & _ & _ & _ & _ & Hslot & _).
      case_bool_decide as Hsym; simpl.
      * subst sym. unfold live at 2, open_trade.
        rewrite Hslot, lookup_insert_eq. unfold live. by rewrite Hnone.
      * by rewrite (live_other s s' sym symbol _ Hslot Hsym).
  - destruct (resolveOpenTrade_cases s sym c now) as [Heq|(Hopen & Hslot & Hr)].
    + rewrite Heq. simpl. done.
    + destruct (resolveOpenTrade s sym c now) as [r s'] eqn:Hres.
      simpl in *.
      assert (Hends : ends symbol (EvResolve sym r) = bool_decide (sym = symbol)).
      { destruct Hr as [->|[o ->]]; done. }
      simpl in Hends. rewrite Hends. case_bool_decide as Hsym; simpl.
      * subst sym. unfold live at 2, open_trade.
        rewrite Hslot, lookup_insert_eq. unfold live.
        destruct Hopen as [t ->]. done.
      * by rewrite (live_other s s' sym symbol _ Hslot Hsym).
Qed.

Lemma count_cons (f : Event → bool) (ev : Event) (evs : list Event) :
  count f (ev :: evs) = (Nat.b2n (f ev) + count f evs)%nat.
Proof. unfold count. simpl. by destruct (f ev). Qed.

Lemma run_balance (lib : Indicators) (ops : list Op) (s : Engine)
    (symbol : string) :
  forallb signal_or_resolve ops = true →
  (count (opens symbol) (fst (run lib s ops)) + live s symbol
   = count (ends symbol) (fst (run lib s ops))
     + live (snd (run lib s ops)) symbol)%nat.
Proof.
  revert s. induction ops as [|op ops IH]; intros s Hops; [done|].
  simpl in Hops. apply andb_true_iff in Hops as [Hop Hops].
  pose proof (step_balance lib s op symbol Hop) as Hstep.
  simpl. destruct (step lib s op) as [ev s1]. simpl in Hstep.
  specialize (IH s1 Hops). destruct (run lib s1 ops) as [evs s2].
  simpl in *. rewrite !count_cons. lia.
Qed.

(** C1. Along any run of [generateSignal] and [resolveOpenTrade] calls from
    an engine that holds no trade for a symbol, the trades handed out for
    the symbol exceed the trades ended by at most one, and by exactly the
    content of the symbol's slot, which is a single trade or none; and
    wherever the run stops with a trade open, [generateSignal] answers Hold
    and leaves the engine, trade included, as it is. *)
Theorem one_open_trade_per_symbol (lib : Indicators) (s : Engine)
    (ops : list Op) (symbol : string) :
  open_trade s symbol = None →
  forallb signal_or_resolve ops = true →
  let evs := fst (run lib s ops) in
  let s' := snd (run lib s ops) in
  (count (opens symbol) evs
   = count (ends symbol) evs + live s' symbol)%nat
  ∧ (live s' symbol <= 1)%nat
  ∧ ∀ t currentPrice ts,
      open_trade s' symbol = Some t →
      ∃ reason,
        generateSignal lib s' symbol currentPrice ts = (HOLD reason, s').
Proof.
  intros Hnone Hops. simpl.
  pose proof (run_balance lib ops s symbol Hops) as Hbal.
  unfold live at 1 in Hbal. rewrite Hnone in Hbal.
  split; [lia|]. split; [apply live_bound|].
  intros t cp ts Ht. by apply generateSignal_holds_while_open with t.
Qed.

Lemma one_open_trade_per_symbol_witness :
  let evs := fst (run Scenario.table Scenario.warm Scenario.signal_stop_signal) in
  let s' := snd (run Scenario.table Scenario.warm Scenario.signal_stop_signal) in
  count (opens Scenario.XAU) evs = 2%nat
  ∧ count (ends Scenario.XAU) evs = 1%nat
  ∧ (count (opens Scenario.XAU) evs
     = count (ends Scenario.XAU) evs + live s' Scenario.XAU)%nat
  ∧ (live s' Scenario.XAU <= 1)%nat.
Proof.
  split; [reflexivity|]. split; [reflexivity|].
  destruct (one_open_trade_per_symbol Scenario.table Scenario.warm
              Scenario.signal_stop_signal Scenario.XAU)
    as (Hbal & Hone & _); [reflexivity | reflexivity |].
  split; [exact Hbal | exact Hone].
Defined.

(** ** What the feeding calls touch *)

Lemma load1mCandles_resets (s : Engine) (symbol : string)
    (candles : list Candle) :
  openTrade (load1mCandles s symbol candles) !! symbol = Some None
  ∧ lastSignalTs (load1mCandles s symbol candles) !! symbol = Some 0%Z.
Proof. unfold load1mCandles; simpl. by rewrite !lookup_insert_eq. Qed.

(** Every other feeding call, and a [load1mCandles] of another symbol,
    leaves the symbol's slot and last signal time alone. *)
Lemma feed_keeps_slot (lib : Indicators) (s : Engine) (op : Op)
    (symbol : string) :
  signal_or_resolve op = false → reloads symbol op = false →
  openTrade (snd (step lib s op)) !! symbol = openTrade s !! symbol
  ∧ lastSignalTs (snd (step lib s op)) !! symbol = lastSignalTs s !! symbol.
Proof.
  destruct op; try discriminate; intros _ Hre; simpl in *; try done.
  apply bool_decide_eq_false in Hre. by rewrite !lookup_insert_ne.
Qed.

(** C4, what the code does. [load1mCandles] sets the slot of its symbol to
    [null]: the trade opened at 12:30 is gone after the next refresh of the
    1-minute buffer, no outcome is returned or recorded for it, and a bar
    through its stop offered to [resolveOpenTrade] afterwards resolves
    nothing. *)
Theorem load1mCandles_discards_open_trade :
  is_Some (open_trade Scenario.in_trade Scenario.XAU)
  ∧ open_trade (load1mCandles Scenario.in_trade Scenario.XAU Scenario.bars1m)
      Scenario.XAU = None
  ∧ stats (load1mCandles Scenario.in_trade Scenario.XAU Scenario.bars1m)
    = stats Scenario.in_trade
  ∧ fst (resolveOpenTrade
           (load1mCandles Scenario.in_trade Scenario.XAU Scenario.bars1m)
           Scenario.XAU Scenario.wide_bar (Scenario.tuesday_1230 + 60000))
    = Ok None.
Proof.
  split; [vm_compute; eauto|]. split; [reflexivity|].
  split; reflexivity.
Qed.

(** ** Cooldown *)

Lemma settle_keeps_lastSignalTs (s : Engine) (symbol : string) (trade : Trade)
    (kind : OutcomeKind) (rPnL : Q) (closePrice : num) :
  lastSignalTs (snd (settle s symbol trade kind rPnL closePrice))
  = lastSignalTs s.
Proof.
  unfold settle. by destruct (_recordResult _ symbol kind rPnL) as [r st].
Qed.

Lemma resolveOpenTrade_keeps_lastSignalTs (s : Engine) (symbol : string)
    (newCandle : Candle) (now : Z) :
  lastSignalTs (snd (resolveOpenTrade s symbol newCandle now)) = lastSignalTs s.
Proof.
  unfold resolveOpenTrade.
  repeat case_match; try done; apply settle_keeps_lastSignalTs.
Qed.

(** While the cooldown runs, [generateSignal] answers Hold with the
    minutes left, rounded up. *)
Lemma generateSignal_cooldown (lib : Indicators) (s : Engine) (symbol : string)
    (currentPrice : Q) (ts last : Z) :
  isScalpSession ts = true →
  lastSignalTs s !! symbol = Some last →
  (ts - last < COOLDOWN * 60000)%Z →
  generateSignal lib s symbol currentPrice ts
  = (HOLD (Cooldown (Some (ceil_div (COOLDOWN * 60000 - (ts - last)) 60000))), s).
Proof.
  intros Hsess Hlast Hcool. unfold generateSignal.
  rewrite Hsess, Hlast. simpl.
  by destruct (Z.ltb_spec (ts - last) (COOLDOWN * 60000)); [|lia].
Qed.

(** A call that is not a [load1mCandles] of the symbol either emits no Sell
    for it and keeps its last signal time, or emits one at a time at least
    the cooldown later and makes that the last signal time. *)
Lemma step_spacing (lib : Indicators) (s : Engine) (op : Op) (symbol : string) :
  reloads symbol op = false →
  let prev := default 0%Z (lastSignalTs s !! symbol) in
  let ev := fst (step lib s op) in
  let s1 := snd (step lib s op) in
  (sell_times symbol [ev] = []
   ∧ lastSignalTs s1 !! symbol = lastSignalTs s !! symbol)
  ∨ ∃ ts, sell_times symbol [ev] = [ts]
          ∧ (COOLDOWN * 60000 <= ts - prev)%Z
          ∧ lastSignalTs s1 !! symbol = Some ts.
Proof.
  intros Hre. destruct op as [sym cp ts|sym c now|sym cs| | | |]; simpl.
  - destruct (generateSignal lib s sym cp ts) as [[r|sig trade trend] s']
      eqn:Hg; simpl.
    + left. split; [done|].
      assert (s' = s) as ->; [|done].
      unfold generateSignal in Hg. repeat case_match; simplify_eq; done.
    + apply generateSignal_sell in Hg
        as (_ & Hcool & _ & _ & _ & _ & _ & _ & Hts & _).
      case_bool_decide as Hsym.
      * subst sym. right. exists ts.
        rewrite Hts, lookup_insert_eq. done.
      * left. by rewrite Hts, lookup_insert_ne.
  - pose proof (resolveOpenTrade_keeps_lastSignalTs s sym c now) as Hk.
    destruct (resolveOpenTrade s sym c now) as [r s']. simpl in *.
    left. by rewrite Hk.
  - left. split; [done|]. simpl in Hre.
    apply bool_decide_eq_false in Hre. by rewrite lookup_insert_ne.
  - by left.
  - by left.
  - by left.
  - by left.
Qed.

Lemma sell_times_cons (symbol : string) (ev : Event) (evs : list Event) :
  sell_times symbol (ev :: evs) = sell_times symbol [ev] ++ sell_times symbol evs.
Proof. unfold sell_times. simpl. by case_match. Qed.

(** X13. Without a [load1mCandles] of the symbol in the run, consecutive
    Sells for it are at least the cooldown apart, whatever the other calls
    and the symbols they are for; the first Sell is at least the cooldown
    after the last signal time the run started with. *)
Lemma cooldown_without_reload (lib : Indicators) (ops : list Op) (s : Engine)
    (symbol : string) :
  forallb (λ op, negb (reloads symbol op)) ops = true →
  spaced_after (default 0%Z (lastSignalTs s !! symbol))
    (sell_times symbol (fst (run lib s ops))).
Proof.
  revert s. induction ops as [|op ops IH]; intros s Hops; [done|].
  simpl in Hops. apply andb_true_iff in Hops as [Hop Hops].
  apply negb_true_iff in Hop.
  pose proof (step_spacing lib s op symbol Hop) as Hstep.
  cbn [run]. destruct (step lib s op) as [ev s1]. cbn [fst snd] in Hstep.
  specialize (IH s1 Hops). destruct (run lib s1 ops) as [evs s2].
  cbn [fst snd] in *. rewrite sell_times_cons.
  destruct Hstep as [[-> Hsame]|(ts & -> & Hgap & Hlast)].
  - rewrite app_nil_l, <- Hsame. exact IH.
  - rewrite Hlast in IH. split; [exact Hgap | exact IH].
Qed.

(** C5, what the code does. [load1mCandles] also sets the symbol's last
    signal time to 0.  Two passes of the polling loop of [scalp_index.js] a
    minute apart, on an unchanged setup, emit two Sells one minute apart:
    the refresh of the 1-minute buffer in the second pass has dropped the
    trade and the cooldown of the first. *)
Theorem load1mCandles_restarts_cooldown :
  sell_times Scenario.XAU
    (fst (run Scenario.table Scenario.warm Scenario.two_polls))
  = [Scenario.tuesday_1230; (Scenario.tuesday_1230 + 60000)%Z]
  ∧ ((Scenario.tuesday_1230 + 60000) - Scenario.tuesday_1230
     < COOLDOWN * 60000)%Z
  ∧ ¬ spaced_after Scenario.tuesday_1230
        (sell_times Scenario.XAU
           (fst (run Scenario.table
                   (snd (run Scenario.table Scenario.warm
                           (Scenario.poll Scenario.tuesday_1230)))
                   (Scenario.poll (Scenario.tuesday_1230 + 60000))))).
Proof.
  split; [reflexivity|]. split; [reflexivity|].
  intros Hsp. vm_compute in Hsp. destruct Hsp as [Hgap _].
  apply Hgap. reflexivity.
Qed.

(** * Further properties *)

(** ** Candle store *)

Lemma slice_last_length {A} (cap : nat) (arr : list A) :
  length (slice_last cap arr) = Nat.min cap (length arr).
Proof. unfold slice_last. rewrite length_drop. lia. Qed.

Lemma push_bounded_length (cap : nat) (buf : option (list Candle))
    (candle : Candle) :
  (length (default [] buf) <= cap)%nat →
  (length (push_bounded cap buf candle) <= cap)%nat.
Proof.
  intros Hlen. unfold push_bounded.
  destruct (Nat.ltb_spec cap (length (default [] buf ++ [candle]))) as [Hov|Hok].
  - destruct (default [] buf) as [|c0 rest]; cbn in *;
      rewrite ?length_app in *; cbn in *; lia.
  - exact Hok.
Qed.

Lemma settle_keeps_candles (s : Engine) (symbol : string) (trade : Trade)
    (kind : OutcomeKind) (rPnL : Q) (closePrice : num) :
  let s' := snd (settle s symbol trade kind rPnL closePrice) in
  candles1m s' = candles1m s ∧ candles5m s' = candles5m s
  ∧ candles1h s' = candles1h s.
Proof.
  unfold settle. by destruct (_recordResult _ symbol kind rPnL) as [r st].
Qed.

Lemma resolveOpenTrade_keeps_candles (s : Engine) (symbol : string)
    (newCandle : Candle) (now : Z) :
  let s' := snd (resolveOpenTrade s symbol newCandle now) in
  candles1m s' = candles1m s ∧ candles5m s' = candles5m s
  ∧ candles1h s' = candles1h s.
Proof.
  unfold resolveOpenTrade.
  repeat case_match; try done; apply settle_keeps_candles.
Qed.

Lemma generateSignal_keeps_candles (lib : Indicators) (s : Engine)
    (symbol : string) (currentPrice : Q) (ts : Z) :
  let s' := snd (generateSignal lib s symbol currentPrice ts) in
  candles1m s' = candles1m s ∧ candles5m s' = candles5m s
  ∧ candles1h s' = candles1h s.
Proof.
  unfold generateSignal. repeat case_match; done.
Qed.

Lemma step_within_capacity (lib : Indicators) (s : Engine) (op : Op) :
  within_capacity s → within_capacity (snd (step lib s op)).
Proof.
  intros (H1 & H5 & Hh).
  destruct op as [sym cp ts|sym c now|sym cs|sym cs|sym cs|sym c|sym c];
    cbn [step].
  - pose proof (generateSignal_keeps_candles lib s sym cp ts) as (E1 & E5 & Eh).
    destruct (generateSignal lib s sym cp ts) as [r s']. cbn [snd] in *.
    unfold within_capacity. by rewrite E1, E5, Eh.
  - pose proof (resolveOpenTrade_keeps_candles s sym c now) as (E1 & E5 & Eh).
    destruct (resolveOpenTrade s sym c now) as [r s']. cbn [snd] in *.
    unfold within_capacity. by rewrite E1, E5, Eh.
  - split; [|done]. cbn. intros symbol buf.
    destruct (decide (sym = symbol)) as [->|Hne].
    + rewrite lookup_insert_eq. intros [= <-]. rewrite slice_last_length. lia.
    + rewrite lookup_insert_ne by done. apply H1.
  - split; [done|]. split; [|done]. cbn. intros symbol buf.
    destruct (decide (sym = symbol)) as [->|Hne].
    + rewrite lookup_insert_eq. intros [= <-]. rewrite slice_last_length. lia.
    + rewrite lookup_insert_ne by done. apply H5.
  - split; [done|]. split; [done|]. cbn. intros symbol buf.
    destruct (decide (sym = symbol)) as [->|Hne].
    + rewrite lookup_insert_eq. intros [= <-]. rewrite slice_last_length. lia.
    + rewrite lookup_insert_ne by done. apply Hh.
  - split; [|done]. cbn. intros symbol buf.
    destruct (decide (sym = symbol)) as [->|Hne].
    + rewrite lookup_insert_eq. intros [= <-]. apply push_bounded_length.
      destruct (candles1m s !! symbol) as [old|] eqn:Hold; cbn; [|lia].
      by apply (H1 symbol).
    + rewrite lookup_insert_ne by done. apply H1.
  - split; [done|]. split; [|done]. cbn. intros symbol buf.
    destruct (decide (sym = symbol)) as [->|Hne].
    + rewrite lookup_insert_eq. intros [= <-]. apply push_bounded_length.
      destruct (candles5m s !! symbol) as [old|] eqn:Hold; cbn; [|lia].
      by apply (H5 symbol).
    + rewrite lookup_insert_ne by done. apply H5.
Qed.

Lemma run_within_capacity (lib : Indicators) (ops : list Op) (s : Engine) :
  within_capacity s → within_capacity (snd (run lib s ops)).
Proof.
  revert s. induction ops as [|op ops IH]; intros s Hs; [exact Hs|].
  cbn [run]. pose proof (step_within_capacity lib s op Hs) as Hstep.
  destruct (step lib s op) as [ev s1]. cbn [snd] in Hstep.
  specialize (IH s1 Hstep). by destruct (run lib s1 ops) as [evs s2].
Qed.

(** X1. Whatever calls are made on a new engine, in whatever order, no
    1-minute or 1-hour buffer ever holds more than 100 candles and no
    5-minute buffer more than 80. *)
Theorem buffers_stay_within_capacity (lib : Indicators) (ops : list Op) :
  within_capacity (snd (run lib constructor ops)).
Proof.
  apply run_within_capacity. unfold within_capacity, constructor. cbn.
  repeat split; intros symbol buf Hin; by rewrite lookup_empty in Hin.
Qed.

(** X2. The load calls keep the most recent candles, in order: the buffer
    is the end of the sequence supplied, the whole of it when it fits, its
    last 100 (1-minute, 1-hour) or 80 (5-minute) otherwise. *)
Theorem load_keeps_most_recent (s : Engine) (symbol : string)
    (candles : list Candle) :
  (∃ older buf,
     candles1m (load1mCandles s symbol candles) !! symbol = Some buf
     ∧ candles = older ++ buf
     ∧ length buf = Nat.min 100 (length candles))
  ∧ (∃ older buf,
       candles5m (load5mCandles s symbol candles) !! symbol = Some buf
       ∧ candles = older ++ buf
       ∧ length buf = Nat.min 80 (length candles))
  ∧ (∃ older buf,
       candles1h (load1hCandles s symbol candles) !! symbol = Some buf
       ∧ candles = older ++ buf
       ∧ length buf = Nat.min 100 (length candles)).
Proof.
  repeat split.
  - exists (take (length candles - 100) candles), (slice_last 100 candles).
    unfold load1mCandles, load5mCandles, load1hCandles;
      cbn [candles1m candles5m candles1h]. rewrite lookup_insert_eq. split; [done|].
    split; [symmetry; apply take_drop | apply slice_last_length].
  - exists (take (length candles - 80) candles), (slice_last 80 candles).
    unfold load1mCandles, load5mCandles, load1hCandles;
      cbn [candles1m candles5m candles1h]. rewrite lookup_insert_eq. split; [done|].
    split; [symmetry; apply take_drop | apply slice_last_length].
  - exists (take (length candles - 100) candles), (slice_last 100 candles).
    unfold load1mCandles, load5mCandles, load1hCandles;
      cbn [candles1m candles5m candles1h]. rewrite lookup_insert_eq. split; [done|].
    split; [symmetry; apply take_drop | apply slice_last_length].
Qed.




(** ** Session gate, by the clock *)

Lemma hour_of_ms (ts : Z) :
  ((ts / 3600000) mod 24 = 12
   ↔ 43200000 <= ts mod 86400000 < 46800000)%Z.
Proof.
  pose proof (Z.rem_mul_r ts 3600000 24 ltac:(lia) ltac:(lia)) as Hsplit.
  change (3600000 * 24)%Z with 86400000%Z in Hsplit.
  pose proof (Z.mod_pos_bound ts 3600000 ltac:(lia)).
  pose proof (Z.mod_pos_bound (ts / 3600000) 24 ltac:(lia)).
  lia.
Qed.

(** X4. The session is open exactly when the timestamp is a valid date, its
    UTC day is Monday to Friday and its time of day is from 12:00:00.000 to
    12:59:59.999 UTC; the rules for Monday before 10:00 and Friday after the
    session end change nothing. *)
Theorem isScalpSession_by_the_clock (ts : Z) :
  isScalpSession ts
  = valid_date ts
    && (1 <=? (ts / 86400000 + 4) mod 7)%Z
    && ((ts / 86400000 + 4) mod 7 <=? 5)%Z
    && (43200000 <=? ms_of_day ts)%Z && (ms_of_day ts <? 46800000)%Z.
Proof.
  rewrite isScalpSession_nominal. unfold nominal_window, getUTCDay,
    getUTCHours, ms_of_day.
  destruct (valid_date ts); [|reflexivity]. cbn [andb].
  pose proof (hour_of_ms ts) as Hh.
  destruct (1 <=? (ts / 86400000 + 4) mod 7)%Z; [|reflexivity].
  destruct ((ts / 86400000 + 4) mod 7 <=? 5)%Z; [|reflexivity].
  cbn [andb].
  destruct (Z.leb_spec 12 ((ts / 3600000) mod 24));
    destruct (Z.ltb_spec ((ts / 3600000) mod 24) 13);
    destruct (Z.leb_spec 43200000 (ts mod 86400000));
    destruct (Z.ltb_spec (ts mod 86400000) 46800000);
    cbn [andb]; try reflexivity; lia.
Qed.

(** ** Trend filters, read backwards *)

Lemma js_gt_true (a b : num) :
  (a > b)%js = true ↔ ∃ x y, a = Some x ∧ b = Some y ∧ (y < x)%Q.
Proof.
  unfold js_gt. rewrite js_lt_true. split.
  - intros (y & x & -> & -> & Hlt). eauto.
  - intros (x & y & -> & -> & Hlt). eauto.
Qed.

Lemma js_ge_true (a b : num) :
  (a >= b)%js = true ↔ ∃ x y, a = Some x ∧ b = Some y ∧ (y <= x)%Q.
Proof.
  unfold js_ge. rewrite js_le_true. split.
  - intros (y & x & -> & -> & Hle). eauto.
  - intros (x & y & -> & -> & Hle). eauto.
Qed.

(** X5. A Bearish answer of [get5mTrend] means what it says: at least 55
    candles, every indicator call returned, and the last readings are
    numbers with close < EMA9 < EMA21 < EMA50 and ADX at least 25. *)
Theorem get5mTrend_bearish_means (lib : Indicators) (s : Engine)
    (symbol : string) :
  get5mTrend lib s symbol = BEARISH →
  ∃ c5 ema9 ema21 ema50 adxs e9 e21 e50 p a,
    let closes := candleClose <$> c5 in
    candles5m s !! symbol = Some c5 ∧ (55 <= length c5)%nat
    ∧ EMA lib closes 9 = Ok ema9 ∧ EMA lib closes 21 = Ok ema21
    ∧ EMA lib closes 50 = Ok ema50
    ∧ ADX lib (candleHigh <$> c5) (candleLow <$> c5) closes 14 = Ok adxs
    ∧ mjoin (at_end ema9 1) = Some e9 ∧ mjoin (at_end ema21 1) = Some e21
    ∧ mjoin (at_end ema50 1) = Some e50 ∧ mjoin (at_end closes 1) = Some p
    ∧ at_end adxs 1 ≫= adx = Some a
    ∧ (p < e9)%Q ∧ (e9 < e21)%Q ∧ (e21 < e50)%Q ∧ (25 <= a)%Q.
Proof.
  unfold get5mTrend, trend_body.
  destruct (candles5m s !! symbol) as [c5|]; [|discriminate].
  destruct (Nat.ltb_spec (length c5) 55) as [|Hlen]; [discriminate|].
  destruct (EMA lib _ 9) as [ema9|] eqn:H9; [|discriminate].
  destruct (EMA lib _ 21) as [ema21|] eqn:H21; [|discriminate].
  destruct (EMA lib _ 50) as [ema50|] eqn:H50; [|discriminate].
  destruct (ADX lib _ _ _ 14) as [adxs|] eqn:Hadx; [|discriminate].
  cbn [mbind res_bind try_catch].
  destruct (_ || _); [discriminate|].
  destruct (_ && _) eqn:Hstack; [|discriminate]. intros _.
  apply andb_true_iff in Hstack as [Hstack Ha].
  apply andb_true_iff in Hstack as [Hstack Hp].
  apply andb_true_iff in Hstack as [He9 He21].
  apply js_lt_true in He9 as (e9 & e21 & E9 & E21 & Hlt1).
  apply js_lt_true in He21 as (e21' & e50 & E21' & E50 & Hlt2).
  apply js_lt_true in Hp as (p & e9' & Ep & E9' & Hlt3).
  apply js_ge_true in Ha as (a & n25 & Ea & [= <-] & Hge).
  rewrite E21 in E21'. injection E21' as <-.
  rewrite E9 in E9'. injection E9' as <-.
  exists c5, ema9, ema21, ema50, adxs, e9, e21, e50, p, a.
  cbn zeta. repeat (split; [first [assumption | reflexivity]|]). assumption.
Qed.

Lemma get5mTrend_bearish_means_witness :
  get5mTrend Scenario.table Scenario.warm Scenario.XAU = BEARISH
  ∧ ∃ e9 e21 e50 p a : Q,
      (p < e9)%Q ∧ (e9 < e21)%Q ∧ (e21 < e50)%Q ∧ (25 <= a)%Q.
Proof.
  assert (Hb : get5mTrend Scenario.table Scenario.warm Scenario.XAU = BEARISH)
    by (vm_compute; reflexivity).
  split; [exact Hb|].
  destruct (get5mTrend_bearish_means _ _ _ Hb)
    as (c5 & ema9 & ema21 & ema50 & adxs & e9 & e21 & e50 & p & a & H).
  cbn zeta in H.
  destruct H as (_ & _ & _ & _ & _ & _ & _ & _ & _ & _ & _ & H1 & H2 & H3 & H4).
  exists e9, e21, e50, p, a. repeat (split; [assumption|]). assumption.
Defined.

(** X6. A directional answer of [get1hMacro] is backed by its readings: at
    least 55 candles, the three indicator calls returned, the last close
    and averages are numbers with close > EMA21 > EMA50 for Bullish and
    close < EMA21 < EMA50 for Bearish, and the ADX, when it is a number, is
    at least 20.  An ADX that is not a number does not stop the answer. *)
Theorem get1hMacro_directional_means (lib : Indicators) (s : Engine)
    (symbol : string) :
  get1hMacro lib s symbol ≠ NEUTRAL →
  ∃ c1h ema21 ema50 adxs e21 e50 price,
    let closes := candleClose <$> c1h in
    candles1h s !! symbol = Some c1h ∧ (55 <= length c1h)%nat
    ∧ EMA lib closes 21 = Ok ema21 ∧ EMA lib closes 50 = Ok ema50
    ∧ ADX lib (candleHigh <$> c1h) (candleLow <$> c1h) closes 14 = Ok adxs
    ∧ mjoin (at_end ema21 1) = Some e21 ∧ mjoin (at_end ema50 1) = Some e50
    ∧ mjoin (at_end closes 1) = Some price
    ∧ (∀ a, at_end adxs 1 ≫= adx = Some a → (20 <= a)%Q)
    ∧ match get1hMacro lib s symbol with
      | BULLISH => (e50 < e21)%Q ∧ (e21 < price)%Q
      | BEARISH => (price < e21)%Q ∧ (e21 < e50)%Q
      | NEUTRAL => False
      end.
Proof.
  unfold get1hMacro, macro_body.
  destruct (candles1h s !! symbol) as [c1h|]; [|done].
  destruct (Nat.ltb_spec (length c1h) 55) as [|Hlen]; [done|].
  destruct (EMA lib _ 21) as [ema21|] eqn:H21; [|done].
  destruct (EMA lib _ 50) as [ema50|] eqn:H50; [|done].
  destruct (ADX lib _ _ _ 14) as [adxs|] eqn:Hadx; [|done].
  cbn [mbind res_bind try_catch].
  destruct (_ || _); [done|].
  destruct (_ < Num 20)%js eqn:Hweak; [done|].
  assert (Hadx20 : ∀ a, at_end adxs 1 ≫= adx = Some a → (20 <= a)%Q).
  { intros a Ha. rewrite Ha in Hweak. by apply Qlt_bool_false. }
  destruct (js_gt _ _ && js_gt _ _) eqn:Hup.
  - intros _. apply andb_true_iff in Hup as [Hs Hp].
    apply js_gt_true in Hs as (e21 & e50 & E21 & E50 & Hlt1).
    apply js_gt_true in Hp as (p & e21' & Ep & E21' & Hlt2).
    rewrite E21 in E21'. injection E21' as <-.
    exists c1h, ema21, ema50, adxs, e21, e50, p.
    cbn zeta. repeat (split; [first [assumption | reflexivity]|]).
    assumption.
  - destruct (js_lt _ _ && js_lt _ _) eqn:Hdown;
      [|intros Hn; exfalso; apply Hn; reflexivity].
    intros _. apply andb_true_iff in Hdown as [Hs Hp].
    apply js_lt_true in Hs as (e21 & e50 & E21 & E50 & Hlt1).
    apply js_lt_true in Hp as (p & e21' & Ep & E21' & Hlt2).
    rewrite E21 in E21'. injection E21' as <-.
    exists c1h, ema21, ema50, adxs, e21, e50, p.
    cbn zeta. repeat (split; [first [assumption | reflexivity]|]).
    assumption.
Qed.

Lemma get1hMacro_directional_means_witness :
  get1hMacro Examples.rising Examples.hourly Scenario.XAU = BULLISH
  ∧ ∃ e21 e50 price : Q, (e50 < e21)%Q ∧ (e21 < price)%Q.
Proof.
  assert (Hb : get1hMacro Examples.rising Examples.hourly Scenario.XAU
               = BULLISH) by (vm_compute; reflexivity).
  split; [exact Hb|].
  destruct (get1hMacro_directional_means Examples.rising Examples.hourly
              Scenario.XAU)
    as (c1h & ema21 & ema50 & adxs & e21 & e50 & price & H).
  { rewrite Hb. discriminate. }
  cbn zeta in H. rewrite Hb in H.
  destruct H as (_ & _ & _ & _ & _ & _ & _ & _ & _ & H1 & H2).
  exists e21, e50, price. split; assumption.
Defined.

(** ** Setup detector, read backwards *)

(** The gates a setup went through, beyond those of [sell_decision_emits]. *)
Lemma sell_decision_gates (c1 : list Candle) (closes : list num)
    (ema8 ema21 rsi atr : list num) (stoch : list StochRow)
    (macd : list MACDRow) (sig : Setup) :
  sell_decision c1 closes ema8 ema21 rsi atr stoch macd = Some sig →
  let rsiVal := mjoin (at_end rsi 1) in
  ∃ stochCur stochPrev macdCur,
    (no_length ema21 = false ∧ no_length rsi = false ∧ no_length atr = false)
    ∧ (at_end stoch 1 = Some stochCur ∧ at_end stoch 2 = Some stochPrev
       ∧ at_end macd 1 = Some macdCur)
    ∧ ((rsiVal < Num 35)%js = false
       ∧ (rsiVal >= mjoin (at_end rsi 2))%js = false)
    ∧ (st_k stochCur < Num 25)%js = false
    ∧ ((histogram macdCur > Num 0)%js
       && match at_end macd 2 with
          | None => true
          | Some mp => (histogram macdCur >= histogram mp)%js
          end) = false
    ∧ (sig_rsi sig = rsiVal ∧ sig_stochK sig = st_k stochCur
       ∧ sig_macdHist sig = histogram macdCur).
Proof.
  unfold sell_decision. intros Hsig.
  destruct (_ || _) eqn:Hlen in Hsig; [discriminate|].
  repeat match type of Hsig with
    | (if ?b then _ else _) = _ => destruct b eqn:?; [discriminate|]
    | match ?o with Some _ => _ | None => _ end = _ =>
        destruct o eqn:?; [|discriminate]
    end.
  injection Hsig as <-. cbn [sig_rsi sig_stochK sig_macdHist].
  apply orb_false_iff in Hlen as [Hlen ?].
  apply orb_false_iff in Hlen as [? ?].
  eexists _, _, _. repeat split; eassumption.
Qed.



(** X8. Every setup [getSellSignal] emits has a confidence from 65 to 95; its
    RSI, when a number, is at least 35 and its stochastic %K, when a number,
    at least 25; when its MACD histogram is a positive number there is a
    row before it whose histogram, if a number, is above it; its ATR is a
    number, at least 0.3; and when its price is a number, stop and target
    are numbers with the stop above the price and the target below it. *)
Theorem getSellSignal_setup_quality (lib : Indicators) (s : Engine)
    (symbol : string) (sig : Setup) :
  getSellSignal lib s symbol = Some sig →
  (65 <= sig_confidence sig <= 95)%Z
  ∧ (∀ r, sig_rsi sig = Some r → (35 <= r)%Q)
  ∧ (∀ k, sig_stochK sig = Some k → (25 <= k)%Q)
  ∧ (∀ h, sig_macdHist sig = Some h → (0 < h)%Q →
       ∃ c1 macd mp,
         candles1m s !! symbol = Some c1
         ∧ MACD lib (candleClose <$> c1) 5 13 4 = Ok macd
         ∧ at_end macd 2 = Some mp
         ∧ ∀ hp, histogram mp = Some hp → (h < hp)%Q)
  ∧ (∃ atr, sig_atr sig = Some atr ∧ (0.3 <= atr)%Q)
  ∧ (∀ p, sig_price sig = Some p →
       ∃ sl tp, sig_sl sig = Some sl ∧ sig_tp sig = Some tp
                ∧ (tp < p)%Q ∧ (p < sl)%Q).
Proof.
  intros Hsig. unfold getSellSignal, signal_body in Hsig.
  destruct (candles1m s !! symbol) as [c1|] eqn:Hc1; [|discriminate].
  destruct (length c1 <? 30)%nat; [discriminate|].
  destruct (EMA lib _ 8) as [ema8|]; [|discriminate].
  destruct (EMA lib _ 21) as [ema21|]; [|discriminate].
  destruct (RSI lib _ 7) as [rsi|]; [|discriminate].
  destruct (ATR lib _ _ _ 7) as [atr|]; [|discriminate].
  destruct (Stochastic lib _ _ _ 5 3) as [stoch|]; [|discriminate].
  destruct (MACD lib _ 5 13 4) as [macd|] eqn:Hmacd; [|discriminate].
  cbn [mbind res_bind try_catch] in Hsig.
  pose proof (sell_decision_emits _ _ _ _ _ _ _ _ _ Hsig)
    as ((Hn & Hlo) & _ & Hconf & _ & (Hp & Hsl & Htp & Hrisk) & (Hatr & _)).
  pose proof (sell_decision_gates _ _ _ _ _ _ _ _ _ Hsig)
    as (cur & prev & mc & _ & _ & (Hrsi & _) & Hk & Hhist & (Er & Ek & Eh)).
  cbn zeta in *.
  destruct (atr_gate _ Hn Hlo) as (a & Ha & Hfloor).
  split; [exact Hconf|].
  split; [|split; [|split; [|split]]].
  - intros r Hr. rewrite Er in Hr. rewrite Hr in Hrsi.
    by apply Qlt_bool_false.
  - intros k Hk'. rewrite Ek in Hk'. rewrite Hk' in Hk.
    by apply Qlt_bool_false.
  - intros h Hh Hpos. rewrite Eh in Hh. rewrite Hh in Hhist.
    assert (Hgt : (Some h > Num 0)%js = true) by (by apply Qlt_bool_iff).
    rewrite Hgt in Hhist. cbn [andb] in Hhist.
    destruct (at_end macd 2) as [mp|] eqn:Hmp; [|discriminate].
    exists c1, macd, mp. split; [reflexivity|]. split; [exact Hmacd|].
    split; [exact Hmp|].
    intros hp Hhp. rewrite Hhp in Hhist. by apply Qle_bool_false.
  - exists a. split; [by rewrite Hatr | exact Hfloor].
  - intros p Hprice. rewrite Hp in Hprice.
    rewrite Hsl, Htp, Hprice, Ha. unfold ATR_MUL, RR.
    eexists _, _. split; [reflexivity|]. split; [reflexivity|].
    assert (Habs : (Qabs (p - (p + a * 1.0)) == a * 1.0)%Q).
    { rewrite Qabs_neg by lra. lra. }
    rewrite Habs. split; lra.
Qed.

Lemma getSellSignal_setup_quality_witness :
  ∃ sig,
    getSellSignal Scenario.table Scenario.warm Scenario.XAU = Some sig
    ∧ (65 <= sig_confidence sig <= 95)%Z
    ∧ ∃ p sl tp, sig_price sig = Some p ∧ sig_sl sig = Some sl
                 ∧ sig_tp sig = Some tp ∧ (tp < p)%Q ∧ (p < sl)%Q.
Proof.
  destruct (getSellSignal Scenario.table Scenario.warm Scenario.XAU)
    as [sig|] eqn:Hsig; [|vm_compute in Hsig; discriminate].
  destruct (getSellSignal_setup_quality _ _ _ _ Hsig)
    as (Hconf & _ & _ & _ & _ & Hrr).
  destruct (sig_price sig) as [p|] eqn:Hp;
    [|vm_compute in Hsig; injection Hsig as <-; discriminate].
  destruct (Hrr p eq_refl) as (sl & tp & Hsl & Htp & Hlo & Hhi).
  exists sig. split; [reflexivity|]. split; [exact Hconf|].
  exists p, sl, tp. split; [exact Hp|]. split; [exact Hsl|].
  split; [exact Htp|]. split; [exact Hlo | exact Hhi].
Defined.

(** ** Signal generation, call by call *)

(** X9. A Hold is an answer only: whatever the reason, the engine is left
    exactly as it was. *)
Theorem generateSignal_hold_changes_nothing (lib : Indicators) (s s' : Engine)
    (symbol : string) (currentPrice : Q) (ts : Z) (reason : HoldReason) :
  generateSignal lib s symbol currentPrice ts = (HOLD reason, s') → s' = s.
Proof.
  unfold generateSignal. intros Hg.
  repeat case_match; simplify_eq; reflexivity.
Qed.

Lemma generateSignal_hold_changes_nothing_witness :
  ∃ reason s',
    generateSignal Scenario.table Scenario.in_trade Scenario.XAU 99.5
      (Scenario.tuesday_1230 + 6 * 60000) = (HOLD reason, s')
    ∧ s' = Scenario.in_trade.
Proof.
  destruct (generateSignal Scenario.table Scenario.in_trade Scenario.XAU 99.5
              (Scenario.tuesday_1230 + 6 * 60000))
    as [[reason|sig trade trend] s'] eqn:Hg;
    [|vm_compute in Hg; discriminate].
  exists reason, s'. split; [reflexivity|].
  exact (generateSignal_hold_changes_nothing _ _ _ _ _ _ _ Hg).
Defined.

(** X10. A Sell writes two things and nothing else: the symbol's slot now
    holds the returned trade, stamped with the symbol, the call's time and
    a reward:risk of 1.8, and the symbol's last signal time is the call's
    time.  Stats, candle buffers, and the slots and signal times of all
    other symbols are untouched. *)
Theorem generateSignal_sell_writes (lib : Indicators) (s s' : Engine)
    (symbol : string) (currentPrice : Q) (ts : Z) (sig : Setup)
    (trade : Trade) (trend : Trend) :
  generateSignal lib s symbol currentPrice ts = (SELL sig trade trend, s') →
  open_trade s' symbol = Some trade
  ∧ lastSignalTs s' !! symbol = Some ts
  ∧ t_symbol trade = symbol ∧ t_openTime trade = ts ∧ t_rr trade = RR
  ∧ t_confidence trade = sig_confidence sig
  ∧ trend = BEARISH
  ∧ stats s' = stats s
  ∧ candles1m s' = candles1m s ∧ candles5m s' = candles5m s
  ∧ candles1h s' = candles1h s
  ∧ ∀ other, other ≠ symbol →
      openTrade s' !! other = openTrade s !! other
      ∧ lastSignalTs s' !! other = lastSignalTs s !! other.
Proof.
  intros Hg. pose proof Hg as Hsell. apply generateSignal_sell in Hsell
    as (_ & _ & _ & _ & Hb & _ & Ht & Hslot & Hts & Hst & H1 & H5 & Hh).
  assert (Htrend : trend = BEARISH).
  { unfold generateSignal in Hg. repeat case_match; simplify_eq.
    by apply dec_stable. }
  unfold open_trade. rewrite Hslot, Hts, !lookup_insert_eq.
  subst trade. cbn [t_symbol t_openTime t_rr t_confidence].
  repeat (split; [first [assumption | reflexivity]|]).
  intros other Hne. by rewrite !lookup_insert_ne.
Qed.

Lemma generateSignal_sell_writes_witness :
  ∃ sig trade trend s',
    generateSignal Scenario.table Scenario.warm Scenario.XAU 99.5
      Scenario.tuesday_1230 = (SELL sig trade trend, s')
    ∧ open_trade s' Scenario.XAU = Some trade
    ∧ lastSignalTs s' !! Scenario.XAU = Some Scenario.tuesday_1230
    ∧ stats s' = stats Scenario.warm.
Proof.
  destruct (generateSignal Scenario.table Scenario.warm Scenario.XAU 99.5
              Scenario.tuesday_1230) as [[r|sig trade trend] s'] eqn:Hg;
    [vm_compute in Hg; discriminate|].
  exists sig, trade, trend, s'. split; [reflexivity|].
  destruct (generateSignal_sell_writes _ _ _ _ _ _ _ _ _ Hg)
    as (Ho & Hl & _ & _ & _ & _ & _ & Hst & _).
  split; [exact Ho|]. split; [exact Hl | exact Hst].
Defined.



Lemma ceil_div_minutes (remaining : Z) :
  (0 < remaining <= 300000)%Z →
  (1 <= ceil_div remaining 60000 <= 5)%Z
  ∧ (remaining <= ceil_div remaining 60000 * 60000 < remaining + 60000)%Z.
Proof.
  intros Hr. unfold ceil_div.
  pose proof (Z.div_mod (- remaining) 60000 ltac:(lia)) as Hdm.
  pose proof (Z.mod_pos_bound (- remaining) 60000 ltac:(lia)) as Hm.
  lia.
Qed.

(** X12. The wait a cooldown Hold reports is the time left to the end of
    the cooldown in whole minutes, rounded up: from 1 to 5 when the call
    comes at or after the last signal and less than five minutes later. *)
Theorem generateSignal_cooldown_wait (lib : Indicators) (s : Engine)
    (symbol : string) (currentPrice : Q) (ts last : Z) :
  isScalpSession ts = true →
  lastSignalTs s !! symbol = Some last →
  (0 <= ts - last < COOLDOWN * 60000)%Z →
  ∃ waitMin,
    generateSignal lib s symbol currentPrice ts
    = (HOLD (Cooldown (Some waitMin)), s)
    ∧ (1 <= waitMin <= COOLDOWN)%Z
    ∧ (COOLDOWN * 60000 - (ts - last) <= waitMin * 60000
       < COOLDOWN * 60000 - (ts - last) + 60000)%Z.
Proof.
  intros Hsess Hlast Hcool.
  exists (ceil_div (COOLDOWN * 60000 - (ts - last)) 60000).
  split; [apply generateSignal_cooldown; [done | done | lia]|].
  unfold COOLDOWN in *. apply ceil_div_minutes. lia.
Qed.

Lemma generateSignal_cooldown_wait_witness :
  ∃ waitMin,
    generateSignal Scenario.table Scenario.in_trade Scenario.XAU 99.5
      (Scenario.tuesday_1230 + 90000)
    = (HOLD (Cooldown (Some waitMin)), Scenario.in_trade)
    ∧ (1 <= waitMin <= COOLDOWN)%Z.
Proof.
  destruct (generateSignal_cooldown_wait Scenario.table Scenario.in_trade
              Scenario.XAU 99.5 (Scenario.tuesday_1230 + 90000)
              Scenario.tuesday_1230)
    as (w & Hg & Hb & _).
  - vm_compute; reflexivity.
  - vm_compute; reflexivity.
  - unfold Scenario.tuesday_1230, COOLDOWN. lia.
  - exists w. split; [exact Hg | exact Hb].
Defined.

(** ** Resolving a trade, branch by branch *)

Lemma age_gate (elapsed : Z) :
  Qle_bool (inject_Z MAX_HOLD) (inject_Z elapsed / 60000)
  = (1200000 <=? elapsed)%Z.
Proof.
  apply eq_true_iff_eq. rewrite Qle_bool_iff, Z.leb_le.
  unfold MAX_HOLD, Qle, Qdiv, Qmult, Qinv, inject_Z. cbn. lia.
Qed.

(** The engine [settle] leaves, when the symbol has its entry. *)
Lemma settle_state (s : Engine) (symbol : string) (trade : Trade)
    (kind : OutcomeKind) (rPnL : Q) (closePrice : num) (e : SymStats) :
  bySymbol (stats s) !! symbol = Some e →
  let s' := snd (settle s symbol trade kind rPnL closePrice) in
  fst (settle s symbol trade kind rPnL closePrice)
  = Ok (Some {| o_trade := trade; o_result := kind; o_rPnL := rPnL;
                o_closePrice := closePrice |})
  ∧ open_trade s' symbol = None
  ∧ fst (_recordResult (stats s) symbol kind rPnL) = Ok ()
  ∧ stats s' = snd (_recordResult (stats s) symbol kind rPnL).
Proof.
  intros He. unfold settle. cbn [stats close_trade].
  rewrite (_recordResult_effect _ _ _ _ e He). cbn.
  unfold open_trade. cbn. by rewrite lookup_insert_eq.
Qed.

(** X14. A candle that stays under the stop and reaches the target closes
    the open trade as a Win: R = +1.8, close price the target, slot
    cleared, one more win and 1.8 R more on the global and on the symbol's
    books.  The symbol has its per-symbol stats entry. *)
Theorem resolveOpenTrade_target (s : Engine) (symbol : string)
    (trade : Trade) (newCandle : Candle) (now : Z) (e : SymStats)
    (high low stopLoss takeProfit : Q) :
  open_trade s symbol = Some trade →
  bySymbol (stats s) !! symbol = Some e →
  t_sl trade = Some stopLoss → t_tp trade = Some takeProfit →
  candleHigh newCandle = Some high → candleLow newCandle = Some low →
  (high < stopLoss)%Q → (low <= takeProfit)%Q →
  ∃ s', resolveOpenTrade s symbol newCandle now
        = (Ok (Some {| o_trade := trade; o_result := WIN; o_rPnL := RR;
                       o_closePrice := Some takeProfit |}), s')
        ∧ open_trade s' symbol = None
        ∧ wins (stats s') = S (wins (stats s))
        ∧ losses (stats s') = losses (stats s)
        ∧ totalR (stats s') = (totalR (stats s) + RR)%Q
        ∧ bySymbol (stats s') !! symbol
          = Some {| ss_wins := S (ss_wins e); ss_losses := ss_losses e;
                    ss_totalR := (ss_totalR e + RR)%Q |}.
Proof.
  intros Hopen He Hsl Htp Hhigh Hlow Hunder Hreach.
  unfold resolveOpenTrade. rewrite Hopen, Hhigh, Hlow, Hsl, Htp.
  assert (Hstop : (Some high >= Some stopLoss)%js = false)
    by (by apply Qle_bool_false).
  assert (Htarget : (Some low <= Some takeProfit)%js = true)
    by (by apply Qle_bool_iff).
  rewrite Hstop, Htarget.
  destruct (settle_state s symbol trade WIN RR (Some takeProfit) e He)
    as (Hres & Hslot & _ & Hst).
  destruct (settle s symbol trade WIN RR (Some takeProfit)) as [r s'].
  cbn [fst snd] in *. subst r. exists s'. split; [reflexivity|].
  split; [exact Hslot|]. rewrite Hst.
  unfold _recordResult. cbn [wins losses totalR bySymbol]. rewrite He.
  cbn. by rewrite lookup_insert_eq.
Qed.

Lemma resolveOpenTrade_target_witness :
  ∃ trade s',
    open_trade Scenario.in_trade Scenario.XAU = Some trade
    ∧ resolveOpenTrade Scenario.in_trade Scenario.XAU Examples.target_bar
        (Scenario.tuesday_1230 + 60000)
      = (Ok (Some {| o_trade := trade; o_result := WIN; o_rPnL := RR;
                     o_closePrice := Some 97.70000%Q |}), s')
    ∧ wins (stats s') = 1%nat.
Proof.
  destruct (open_trade Scenario.in_trade Scenario.XAU) as [trade|] eqn:Ht;
    [|vm_compute in Ht; discriminate].
  assert (He : bySymbol (stats Scenario.in_trade) !! Scenario.XAU
               = Some {| ss_wins := 0; ss_losses := 0; ss_totalR := 0 |})
    by (vm_compute; reflexivity).
  assert (Hsl : t_sl trade = Some 100.50%Q)
    by (vm_compute in Ht; injection Ht as <-; reflexivity).
  assert (Htp : t_tp trade = Some 97.70000%Q)
    by (vm_compute in Ht; injection Ht as <-; reflexivity).
  destruct (resolveOpenTrade_target Scenario.in_trade Scenario.XAU
              trade Examples.target_bar (Scenario.tuesday_1230 + 60000) _
              100 97.5 100.50 97.70000 Ht He Hsl Htp eq_refl eq_refl)
    as (s' & Hr & _ & Hw & _); [reflexivity | vm_compute; discriminate |].
  exists trade, s'.
  split; [reflexivity|]. split; [exact Hr | exact Hw].
Defined.

(** X15. A candle that touches neither stop nor target closes the trade
    only by age, and the line is twenty minutes to the millisecond: before
    1,200,000 ms since the open the call returns nothing and leaves the
    engine as it was; from then on it returns Expired with R = -0.15 at
    the candle's close, clears the slot and counts the expiry globally,
    leaving every per-symbol entry alone.  No stats entry is needed. *)
Theorem resolveOpenTrade_max_hold (s : Engine) (symbol : string)
    (trade : Trade) (newCandle : Candle) (now : Z) :
  open_trade s symbol = Some trade →
  (candleHigh newCandle >= t_sl trade)%js = false →
  (candleLow newCandle <= t_tp trade)%js = false →
  ((now - t_openTime trade < 1200000)%Z →
   resolveOpenTrade s symbol newCandle now = (Ok None, s))
  ∧ ((1200000 <= now - t_openTime trade)%Z →
     ∃ s', resolveOpenTrade s symbol newCandle now
           = (Ok (Some {| o_trade := trade; o_result := EXPIRED;
                          o_rPnL := -0.15;
                          o_closePrice := candleClose newCandle |}), s')
           ∧ open_trade s' symbol = None
           ∧ expired (stats s') = S (expired (stats s))
           ∧ wins (stats s') = wins (stats s)
           ∧ losses (stats s') = losses (stats s)
           ∧ totalR (stats s') = (totalR (stats s) + -0.15)%Q
           ∧ bySymbol (stats s') = bySymbol (stats s)).
Proof.
  intros Hopen Hstop Htarget. unfold resolveOpenTrade.
  rewrite Hopen, Hstop, Htarget. cbn zeta. rewrite age_gate.
  split; intros Hage.
  - by destruct (Z.leb_spec 1200000 (now - t_openTime trade)); [lia|].
  - destruct (Z.leb_spec 1200000 (now - t_openTime trade)); [|lia].
    unfold settle, _recordResult. cbn.
    eexists. split; [reflexivity|]. cbn.
    unfold open_trade. cbn. by rewrite lookup_insert_eq.
Qed.

Lemma resolveOpenTrade_max_hold_witness :
  ∃ trade,
    open_trade Scenario.in_trade Scenario.XAU = Some trade
    ∧ resolveOpenTrade Scenario.in_trade Scenario.XAU Scenario.quiet_bar
        (Scenario.tuesday_1230 + 1199999) = (Ok None, Scenario.in_trade)
    ∧ ∃ s', resolveOpenTrade Scenario.in_trade Scenario.XAU
              Scenario.quiet_bar (Scenario.tuesday_1230 + 1200000)
            = (Ok (Some {| o_trade := trade; o_result := EXPIRED;
                           o_rPnL := -0.15;
                           o_closePrice := candleClose Scenario.quiet_bar |}),
               s')
            ∧ expired (stats s') = 1%nat.
Proof.
  destruct (open_trade Scenario.in_trade Scenario.XAU) as [trade|] eqn:Ht;
    [|vm_compute in Ht; discriminate].
  assert (Hsl : (candleHigh Scenario.quiet_bar >= t_sl trade)%js = false)
    by (vm_compute in Ht; injection Ht as <-; reflexivity).
  assert (Htp : (candleLow Scenario.quiet_bar <= t_tp trade)%js = false)
    by (vm_compute in Ht; injection Ht as <-; reflexivity).
  assert (Hopen : t_openTime trade = Scenario.tuesday_1230)
    by (vm_compute in Ht; injection Ht as <-; reflexivity).
  exists trade. split; [reflexivity|].
  destruct (resolveOpenTrade_max_hold Scenario.in_trade Scenario.XAU trade
              Scenario.quiet_bar (Scenario.tuesday_1230 + 1199999)
              Ht Hsl Htp) as [Hearly _].
  destruct (resolveOpenTrade_max_hold Scenario.in_trade Scenario.XAU trade
              Scenario.quiet_bar (Scenario.tuesday_1230 + 1200000)
              Ht Hsl Htp) as [_ Hlate].
  split.
  - apply Hearly. rewrite Hopen. lia.
  - destruct Hlate as (s' & Hr & _ & Hx & _); [rewrite Hopen; lia|].
    exists s'. split; [exact Hr | exact Hx].
Defined.

(** X16. For a symbol without per-symbol stats entry (one fed through
    [push1mCandle] only), a candle that touches the stop or the target
    makes [resolveOpenTrade] raise instead of returning the outcome, after
    it has cleared the slot and counted the win or loss globally: the
    caller sees no outcome, and the next call finds no trade. *)
Theorem resolveOpenTrade_raises_without_stats_entry (s : Engine)
    (symbol : string) (trade : Trade) (newCandle : Candle) (now now' : Z)
    (nextCandle : Candle) :
  open_trade s symbol = Some trade →
  bySymbol (stats s) !! symbol = None →
  (candleHigh newCandle >= t_sl trade)%js = true
  ∨ (candleLow newCandle <= t_tp trade)%js = true →
  let s' := snd (resolveOpenTrade s symbol newCandle now) in
  fst (resolveOpenTrade s symbol newCandle now) = Throw
  ∧ open_trade s' symbol = None
  ∧ (wins (stats s') + losses (stats s')
     = S (wins (stats s) + losses (stats s)))%nat
  ∧ bySymbol (stats s') = bySymbol (stats s)
  ∧ resolveOpenTrade s' symbol nextCandle now' = (Ok None, s').
Proof.
  intros Hopen He Htouch. cbn zeta.
  assert (Hnext : ∀ s1, open_trade s1 symbol = None →
            resolveOpenTrade s1 symbol nextCandle now' = (Ok None, s1)).
  { intros s1 H1. unfold resolveOpenTrade. by rewrite H1. }
  assert (Hsettle : ∃ kind rPnL closePrice,
            kind ≠ EXPIRED
            ∧ resolveOpenTrade s symbol newCandle now
              = settle s symbol trade kind rPnL closePrice).
  { unfold resolveOpenTrade. rewrite Hopen.
    destruct (candleHigh newCandle >= t_sl trade)%js eqn:Hstop.
    - by exists LOSS, (-1)%Q, (t_sl trade).
    - destruct Htouch as [|Htarget]; [discriminate|]. rewrite Htarget.
      by exists WIN, RR, (t_tp trade). }
  destruct Hsettle as (kind & rPnL & closePrice & Hkind & ->).
  unfold settle, _recordResult. cbn [stats close_trade bySymbol].
  destruct kind; [| |done]; rewrite He; cbn; repeat split; try lia.
  - unfold open_trade. cbn. by rewrite lookup_insert_eq.
  - apply Hnext. unfold open_trade. cbn. by rewrite lookup_insert_eq.
  - unfold open_trade. cbn. by rewrite lookup_insert_eq.
  - apply Hnext. unfold open_trade. cbn. by rewrite lookup_insert_eq.
Qed.

Lemma resolveOpenTrade_raises_without_stats_entry_witness :
  let opened :=
    snd (generateSignal Scenario.table Scenario.pushed Scenario.XAU 99.5
           Scenario.tuesday_1230) in
  let s' :=
    snd (resolveOpenTrade opened Scenario.XAU Scenario.wide_bar
           (Scenario.tuesday_1230 + 60000)) in
  fst (resolveOpenTrade opened Scenario.XAU Scenario.wide_bar
         (Scenario.tuesday_1230 + 60000)) = Throw
  ∧ open_trade s' Scenario.XAU = None
  ∧ resolveOpenTrade s' Scenario.XAU Scenario.wide_bar
      (Scenario.tuesday_1230 + 120000) = (Ok None, s').
Proof.
  intros opened s'.
  destruct (open_trade opened Scenario.XAU) as [trade|] eqn:Ht;
    [|vm_compute in Ht; discriminate].
  assert (He : bySymbol (stats opened) !! Scenario.XAU = None)
    by (vm_compute; reflexivity).
  assert (Hstop : (candleHigh Scenario.wide_bar >= t_sl trade)%js = true)
    by (vm_compute in Ht; injection Ht as <-; reflexivity).
  destruct (resolveOpenTrade_raises_without_stats_entry opened Scenario.XAU
              trade Scenario.wide_bar (Scenario.tuesday_1230 + 60000)
              (Scenario.tuesday_1230 + 120000) Scenario.wide_bar
              Ht He (or_introl Hstop)) as (Hr & Hc & _ & _ & Hn).
  split; [exact Hr|]. split; [exact Hc | exact Hn].
Defined.

Lemma settle_frame (s : Engine) (symbol : string) (trade : Trade)
    (kind : OutcomeKind) (rPnL : Q) (closePrice : num) (other : string) :
  other ≠ symbol →
  let s' := snd (settle s symbol trade kind rPnL closePrice) in
  openTrade s' !! other = openTrade s !! other
  ∧ bySymbol (stats s') !! other = bySymbol (stats s) !! other.
Proof.
  intros Hne. unfold settle, _recordResult. cbn [stats close_trade bySymbol].
  destruct kind; [destruct (bySymbol (stats s) !! symbol)..|]; cbn;
    rewrite ?lookup_insert_ne by done; done.
Qed.

(** X17. [resolveOpenTrade] works on one symbol: whatever it returns, the
    candle buffers and the last signal times are as before, and so are the
    slot and the stats entry of every other symbol. *)
Theorem resolveOpenTrade_touches_one_symbol (s : Engine) (symbol : string)
    (newCandle : Candle) (now : Z) :
  let s' := snd (resolveOpenTrade s symbol newCandle now) in
  candles1m s' = candles1m s ∧ candles5m s' = candles5m s
  ∧ candles1h s' = candles1h s ∧ lastSignalTs s' = lastSignalTs s
  ∧ ∀ other, other ≠ symbol →
      openTrade s' !! other = openTrade s !! other
      ∧ bySymbol (stats s') !! other = bySymbol (stats s) !! other.
Proof.
  cbn zeta.
  pose proof (resolveOpenTrade_keeps_candles s symbol newCandle now)
    as (H1 & H5 & Hh).
  pose proof (resolveOpenTrade_keeps_lastSignalTs s symbol newCandle now) as Hl.
  repeat (split; [assumption|]).
  intros other Hne. unfold resolveOpenTrade.
  repeat case_match; try done; by apply settle_frame.
Qed.

Lemma resolveOpenTrade_touches_one_symbol_witness :
  let s' :=
    snd (resolveOpenTrade Scenario.in_trade Scenario.XAU Scenario.wide_bar
           (Scenario.tuesday_1230 + 60000)) in
  candles1m s' = candles1m Scenario.in_trade
  ∧ lastSignalTs s' = lastSignalTs Scenario.in_trade
  ∧ openTrade s' !! "EUR/USD" = openTrade Scenario.in_trade !! "EUR/USD".
Proof.
  intros s'.
  destruct (resolveOpenTrade_touches_one_symbol Scenario.in_trade Scenario.XAU
              Scenario.wide_bar (Scenario.tuesday_1230 + 60000))
    as (H1 & _ & _ & Hl & Hother).
  split; [exact H1|]. split; [exact Hl|].
  apply (Hother "EUR/USD"). discriminate.
Defined.

(** X18. An outcome [resolveOpenTrade] returns is one of three, fixed by its
    kind: a Loss at R = -1 closed at the trade's stop, a Win at R = +1.8
    closed at its target, or an Expired at R = -0.15 closed at the
    candle's close.  It carries the trade that was open, and the slot is
    empty afterwards. *)
Theorem resolveOpenTrade_outcome_shape (s s' : Engine) (symbol : string)
    (newCandle : Candle) (now : Z) (o : Outcome) :
  resolveOpenTrade s symbol newCandle now = (Ok (Some o), s') →
  open_trade s symbol = Some (o_trade o)
  ∧ open_trade s' symbol = None
  ∧ match o_result o with
    | LOSS => o_rPnL o = (-1)%Q ∧ o_closePrice o = t_sl (o_trade o)
    | WIN => o_rPnL o = RR ∧ o_closePrice o = t_tp (o_trade o)
    | EXPIRED =>
        o_rPnL o = (-0.15)%Q ∧ o_closePrice o = candleClose newCandle
    end.
Proof.
  intros Hres.
  assert (Hclear : open_trade s' symbol = None).
  { destruct (resolveOpenTrade_cases s symbol newCandle now)
      as [Hnone|(_ & Hslot & _)].
    - rewrite Hres in Hnone. discriminate.
    - rewrite Hres in Hslot. cbn [snd] in Hslot.
      unfold open_trade. by rewrite Hslot, lookup_insert_eq. }
  unfold resolveOpenTrade in Hres.
  destruct (open_trade s symbol) as [trade|]; [|discriminate].
  repeat case_match; try discriminate;
    apply settle_returns in Hres as [-> _]; cbn; done.
Qed.

Lemma resolveOpenTrade_outcome_shape_witness :
  ∃ o s',
    resolveOpenTrade Scenario.in_trade Scenario.XAU Scenario.quiet_bar
      Scenario.tuesday_1251 = (Ok (Some o), s')
    ∧ open_trade Scenario.in_trade Scenario.XAU = Some (o_trade o)
    ∧ open_trade s' Scenario.XAU = None.
Proof.
  destruct (resolveOpenTrade Scenario.in_trade Scenario.XAU Scenario.quiet_bar
              Scenario.tuesday_1251) as [[[o|]|] s'] eqn:Hr;
    [|vm_compute in Hr; discriminate..].
  destruct (resolveOpenTrade_outcome_shape _ _ _ _ _ _ Hr) as (Ho & Hc & _).
  exists o, s'. split; [reflexivity|]. split; [exact Ho | exact Hc].
Defined.

(** ** The books *)

(** The three ways [resolveOpenTrade] calls [settle]. *)
Lemma resolveOpenTrade_settles (s : Engine) (symbol : string)
    (newCandle : Candle) (now : Z) :
  resolveOpenTrade s symbol newCandle now = (Ok None, s)
  ∨ ∃ trade kind closePrice,
      resolveOpenTrade s symbol newCandle now
      = settle s symbol trade kind
          match kind with WIN => RR | LOSS => -1 | EXPIRED => -0.15 end%Q
          closePrice.
Proof.
  unfold resolveOpenTrade.
  destruct (open_trade s symbol) as [trade|]; [|by left].
  destruct (_ >= _)%js; [right; by exists trade, LOSS, (t_sl trade)|].
  destruct (_ <= _)%js; [right; by exists trade, WIN, (t_tp trade)|].
  destruct (Qle_bool _ _); [|by left].
  right. by exists trade, EXPIRED, (candleClose newCandle).
Qed.

Lemma settle_books (s : Engine) (symbol : string) (trade : Trade)
    (kind : OutcomeKind) (closePrice : num) :
  let rPnL := match kind with WIN => RR | LOSS => -1 | EXPIRED => -0.15 end%Q in
  let r := fst (settle s symbol trade kind rPnL closePrice) in
  let s' := snd (settle s symbol trade kind rPnL closePrice) in
  closed_total (stats s') = S (closed_total (stats s))
  ∧ closing (EvResolve symbol r) = true.
Proof.
  cbn zeta. unfold settle, _recordResult, closed_total.
  cbn [stats close_trade bySymbol].
  destruct kind.
  - destruct (bySymbol (stats s) !! symbol) as [e|] eqn:He; cbn;
      (split; [lia | done]).
  - destruct (bySymbol (stats s) !! symbol) as [e|] eqn:He; cbn;
      (split; [lia | done]).
  - cbn. split; [lia | done].
Qed.

Lemma generateSignal_keeps_stats (lib : Indicators) (s : Engine)
    (symbol : string) (currentPrice : Q) (ts : Z) :
  stats (snd (generateSignal lib s symbol currentPrice ts)) = stats s.
Proof. unfold generateSignal. repeat case_match; done. Qed.

Lemma step_books (lib : Indicators) (s : Engine) (op : Op) :
  let ev := fst (step lib s op) in
  let s' := snd (step lib s op) in
  closed_total (stats s') = (Nat.b2n (closing ev) + closed_total (stats s))%nat.
Proof.
  destruct op as [sym cp ts|sym c now|sym cs|sym cs|sym cs|sym c|sym c];
    cbn [step]; try (cbn; done).
  - pose proof (generateSignal_keeps_stats lib s sym cp ts) as Hst.
    destruct (generateSignal lib s sym cp ts) as [r s']. cbn [fst snd] in *.
    rewrite Hst. done.
  - destruct (resolveOpenTrade_settles s sym c now)
      as [->|(trade & kind & cp & ->)]; [cbn; done|].
    pose proof (settle_books s sym trade kind cp) as (Hc & Hev).
    cbn zeta in *.
    destruct (settle s sym trade kind _ cp) as [r s']. cbn [fst snd] in *.
    rewrite Hev. cbn [Nat.b2n]. lia.
  - cbn zeta. cbn [fst snd closing Nat.b2n]. unfold load1mCandles.
    cbn [stats].
    destruct (bySymbol (stats s) !! sym) as [e|] eqn:He; [done|].
    unfold closed_total. cbn. done.
Qed.

Lemma run_books (lib : Indicators) (ops : list Op) (s : Engine) :
  let evs := fst (run lib s ops) in
  let s' := snd (run lib s ops) in
  closed_total (stats s') = (count closing evs + closed_total (stats s))%nat.
Proof.
  revert s. induction ops as [|op ops IH]; intros s; [cbn; done|].
  cbn [run]. pose proof (step_books lib s op) as Hc.
  destruct (step lib s op) as [ev s1]. cbn [fst snd] in *.
  specialize (IH s1). cbn zeta in IH.
  destruct (run lib s1 ops) as [evs s2]. cbn [fst snd] in *.
  rewrite count_cons, IH, Hc. lia.
Qed.

(** X21. On an engine driven from new by any calls in any order,
    wins + losses + expired is the number of
    [resolveOpenTrade] calls that ended a trade, whether they returned the
    outcome or raised after counting it: every closing is counted
    globally, once. *)
Theorem closings_counted_once (lib : Indicators) (ops : list Op) :
  closed_total (stats (snd (run lib constructor ops)))
  = count closing (fst (run lib constructor ops)).
Proof.
  pose proof (run_books lib ops constructor) as Hc. cbn zeta in Hc.
  rewrite Hc. unfold closed_total, constructor. cbn. lia.
Qed.

(** ** Reloading the 1-minute buffer *)

(** X22. Right after [load1mCandles] of a symbol, [resolveOpenTrade] for
    that symbol has nothing to resolve, whatever trade was open before
    and whatever the candle: it returns nothing and changes nothing. *)
Theorem load1mCandles_then_resolve (s : Engine) (symbol : string)
    (candles : list Candle) (newCandle : Candle) (now : Z) :
  resolveOpenTrade (load1mCandles s symbol candles) symbol newCandle now
  = (Ok None, load1mCandles s symbol candles).
Proof.
  unfold resolveOpenTrade, open_trade.
  destruct (load1mCandles_resets s symbol candles) as [-> _]. reflexivity.
Qed.

(** X23. Right after [load1mCandles] of a symbol, [generateSignal] for it at
    any time from five minutes after the epoch is held back neither by a
    cooldown nor by an open trade, whatever was signalled before. *)
Theorem load1mCandles_then_generateSignal (lib : Indicators) (s : Engine)
    (symbol : string) (candles : list Candle) (currentPrice : Q) (ts : Z)
    (reason : HoldReason) :
  (COOLDOWN * 60000 <= ts)%Z →
  fst (generateSignal lib (load1mCandles s symbol candles) symbol
         currentPrice ts) = HOLD reason →
  match reason with
  | Cooldown _ | OpenTradeHeld _ => False
  | _ => True
  end.
Proof.
  intros Hts. unfold generateSignal, open_trade.
  destruct (load1mCandles_resets s symbol candles) as [-> ->].
  change (default 0%Z (Some 0%Z)) with 0%Z.
  destruct (isScalpSession ts); cbn [negb]; [|by intros [= <-]].
  destruct (Z.ltb_spec (ts - 0) (COOLDOWN * 60000)); [lia|].
  cbn [fst].
  destruct (decide (get1hMacro lib _ symbol = BULLISH));
    [by intros [= <-]|].
  destruct (decide (get5mTrend lib _ symbol ≠ BEARISH));
    [by intros [= <-]|].
  destruct (getSellSignal lib _ symbol); [discriminate | by intros [= <-]].
Qed.

Lemma load1mCandles_then_generateSignal_witness :
  ∃ sig trade trend,
    fst (generateSignal Scenario.table
           (load1mCandles Scenario.in_trade Scenario.XAU Scenario.bars1m)
           Scenario.XAU 99.5 (Scenario.tuesday_1230 + 60000))
    = SELL sig trade trend
    ∧ ∀ reason,
        fst (generateSignal Scenario.table
               (load1mCandles Scenario.in_trade Scenario.XAU Scenario.bars1m)
               Scenario.XAU 99.5 Scenario.tuesday_1400) = HOLD reason →
        match reason with
        | Cooldown _ | OpenTradeHeld _ => False
        | _ => True
        end.
Proof.
  destruct (fst (generateSignal Scenario.table
                   (load1mCandles Scenario.in_trade Scenario.XAU
                      Scenario.bars1m)
                   Scenario.XAU 99.5 (Scenario.tuesday_1230 + 60000)))
    as [r|sig trade trend] eqn:Hg; [vm_compute in Hg; discriminate|].
  exists sig, trade, trend. split; [reflexivity|].
  intros reason.
  apply (load1mCandles_then_generateSignal Scenario.table Scenario.in_trade
           Scenario.XAU Scenario.bars1m 99.5 Scenario.tuesday_1400 reason).
  unfold COOLDOWN, Scenario.tuesday_1400. lia.
Defined.



(** ** Win rate *)

Lemma toFixed_1_percent (x : Q) :
  (0 <= x)%Q → (x <= 100)%Q →
  (0 <= toFixed 1 x <= 1000)%Z
  ∧ (Qabs (inject_Z (toFixed 1 x) / 10 - x) <= 0.05)%Q.
Proof.
  intros Hx Hhi. unfold toFixed.
  assert (Hneg : Qlt_bool x 0 = false) by (by apply Qlt_bool_false).
  rewrite Hneg.
  change (inject_Z (10 ^ Z.of_nat 1)) with 10%Q.
  set (y := (Qabs x * 10 + 0.5)%Q).
  assert (Hy : (y == x * 10 + 0.5)%Q).
  { unfold y. by rewrite (Qabs_pos x Hx). }
  pose proof (Qfloor_le y) as Hlo.
  pose proof (Qlt_floor y) as Hup.
  rewrite inject_Z_plus in Hup. change (inject_Z 1) with 1%Q in Hup.
  split.
  - split.
    + change 0%Z with (Qfloor 0.5). apply Qfloor_resp_le. lra.
    + change 1000%Z with (Qfloor 1000.5). apply Qfloor_resp_le. lra.
  - apply Qabs_Qle_condition.
    set (n := inject_Z (Qfloor y)) in *.
    assert (Hdiv : (n / 10 == n * 0.1)%Q) by field.
    rewrite Hdiv. split; lra.
Qed.

(** X25. [getStats] counts as closed the wins and losses, not the expiries;
    with a closed trade on the books the win rate is the percentage of
    wins among them printed with one decimal: a number of tenths from 0
    to 1000, within 0.05 of the percentage. *)
Theorem getStats_winRate (s : Engine) :
  closed (getStats s) = (wins (stats s) + losses (stats s))%nat
  ∧ ((0 < wins (stats s) + losses (stats s))%nat →
     let percent :=
       (Q_of_nat (wins (stats s))
        / Q_of_nat (wins (stats s) + losses (stats s)) * 100)%Q in
     ∃ tenths,
       winRate (getStats s) = Fixed 1 tenths
       ∧ (0 <= tenths <= 1000)%Z
       ∧ (Qabs (inject_Z tenths / 10 - percent) <= 0.05)%Q).
Proof.
  split; [reflexivity|]. intros Hclosed. cbn zeta. unfold getStats.
  cbn [winRate].
  destruct (Nat.ltb_spec 0 (wins (stats s) + losses (stats s))); [|lia].
  eexists. split; [reflexivity|].
  set (w := Q_of_nat (wins (stats s))).
  set (c := Q_of_nat (wins (stats s) + losses (stats s))).
  assert (Hc : (0 < c)%Q) by (by apply Q_of_nat_pos).
  assert (Hw : (0 <= w)%Q) by apply Q_of_nat_nonneg.
  assert (Hwc : (w <= c)%Q).
  { unfold w, c, Q_of_nat. rewrite <- Zle_Qle. lia. }
  assert (H0 : (0 <= w / c)%Q) by (apply Qle_shift_div_l; [done | lra]).
  assert (H1 : (w / c <= 1)%Q) by (apply Qle_shift_div_r; [done | lra]).
  apply toFixed_1_percent; lra.
Qed.

Lemma getStats_winRate_witness :
  closed (getStats Scenario.tally_1_7) = 8%nat
  ∧ ∃ tenths,
      winRate (getStats Scenario.tally_1_7) = Fixed 1 tenths
      ∧ (0 <= tenths <= 1000)%Z.
Proof.
  destruct (getStats_winRate Scenario.tally_1_7) as [Hc Hrate].
  split; [exact Hc|].
  destruct Hrate as (tenths & Hw & Hb & _); [cbn; lia|].
  exists tenths. split; [exact Hw | exact Hb].
Defined.

Lemma cooldown_without_reload_witness :
  forallb (λ op, negb (reloads Scenario.XAU op)) Scenario.signal_stop_signal
  = true
  ∧ sell_times Scenario.XAU
      (fst (run Scenario.table Scenario.warm Scenario.signal_stop_signal))
    = [Scenario.tuesday_1230; (Scenario.tuesday_1230 + 8 * 60000)%Z]
  ∧ spaced_after (default 0%Z (lastSignalTs Scenario.warm !! Scenario.XAU))
      (sell_times Scenario.XAU
         (fst (run Scenario.table Scenario.warm Scenario.signal_stop_signal))).
Proof.
  split; [reflexivity|]. split; [vm_compute; reflexivity|].
  apply (cooldown_without_reload Scenario.table Scenario.signal_stop_signal
           Scenario.warm Scenario.XAU).
  reflexivity.
Defined.

(** ** When a Sell is emitted *)

(** X27. [generateSignal] emits a Sell exactly when all six conditions hold
    at once: the session is open, at least five minutes have passed since
    the symbol's last signal, no trade is open for the symbol, the 1-hour
    trend is not Bullish, the 5-minute trend is Bearish, and the detector
    returns a setup.  (The left side is the emitted Sell, the right side
    the conditions; either implies the other.) *)
Theorem generateSignal_sells_exactly_when (lib : Indicators) (s : Engine)
    (symbol : string) (currentPrice : Q) (ts : Z) (sig : Setup) :
  (∃ trade s',
     generateSignal lib s symbol currentPrice ts = (SELL sig trade BEARISH, s'))
  ↔ (isScalpSession ts = true
     ∧ (COOLDOWN * 60000 <= ts - default 0 (lastSignalTs s !! symbol))%Z
     ∧ open_trade s symbol = None
     ∧ get1hMacro lib s symbol ≠ BULLISH
     ∧ get5mTrend lib s symbol = BEARISH
     ∧ getSellSignal lib s symbol = Some sig).
Proof.
  split.
  - intros (trade & s' & Hg). apply generateSignal_sell in Hg.
    destruct Hg as (H1 & H2 & H3 & H4 & H5 & H6 & _).
    repeat (split; [assumption|]). assumption.
  - intros (Hsess & Hcool & Hopen & Hmacro & Htrend & Hsig).
    unfold generateSignal. rewrite Hsess. cbn [negb].
    destruct (Z.ltb_spec (ts - default 0%Z (lastSignalTs s !! symbol))
                (COOLDOWN * 60000)); [lia|].
    rewrite Hopen.
    destruct (decide (get1hMacro lib s symbol = BULLISH)); [done|].
    destruct (decide (get5mTrend lib s symbol ≠ BEARISH)); [done|].
    rewrite Hsig, Htrend. eauto.
Qed.

Lemma generateSignal_sells_exactly_when_witness :
  ∃ sig,
    getSellSignal Scenario.table Scenario.warm Scenario.XAU = Some sig
    ∧ ∃ trade s',
        generateSignal Scenario.table Scenario.warm Scenario.XAU 99.5
          Scenario.tuesday_1230 = (SELL sig trade BEARISH, s').
Proof.
  destruct (getSellSignal Scenario.table Scenario.warm Scenario.XAU)
    as [sig|] eqn:Hsig; [|vm_compute in Hsig; discriminate].
  exists sig. split; [reflexivity|].
  apply (proj2 (generateSignal_sells_exactly_when Scenario.table Scenario.warm
                  Scenario.XAU 99.5 Scenario.tuesday_1230 sig)).
  split; [vm_compute; reflexivity|].
  split; [vm_compute; discriminate|].
  split; [vm_compute; reflexivity|].
  split; [vm_compute; discriminate|].
  split; [vm_compute; reflexivity | exact Hsig].
Defined.

(** ** The pullback high *)

Lemma Math_max_spec (xs : list num) (m : Q) :
  Math_max xs = Some m →
  (∀ x, x ∈ xs → ∃ q, x = Some q ∧ (q <= m)%Q) ∧ Some m ∈ xs.
Proof.
  revert m. induction xs as [|x rest IH]; intros m; [discriminate|].
  destruct rest as [|y rest'].
  - cbn. intros ->. split; [|by left].
    intros x' Hin. apply list_elem_of_singleton in Hin as ->.
    exists m. split; [done | apply Qle_refl].
  - change (Math_max (x :: y :: rest'))
      with (match x, Math_max (y :: rest') with
            | Some a, Some b => Some (if Qle_bool a b then b else a)
            | _, _ => None
            end).
    destruct x as [a|]; [|discriminate].
    destruct (Math_max (y :: rest')) as [b|]; [|discriminate].
    destruct (IH b eq_refl) as [Hall Hmem].
    destruct (Qle_bool a b) eqn:Hab; intros [= <-].
    + apply Qle_bool_iff in Hab. split; [|by right].
      intros x' Hin. apply elem_of_cons in Hin as [->|Hin]; [by exists a|].
      by apply Hall.
    + apply Qle_bool_false in Hab. split; [|by left].
      intros x' Hin. apply elem_of_cons in Hin as [->|Hin].
      * exists a. split; [done | apply Qle_refl].
      * destruct (Hall x' Hin) as (q & -> & Hq). exists q.
        split; [done | lra].
Qed.

(** X28. The pullback high of an emitted setup, when a number, is the
    highest high of the seven candles before the current one: each of the
    seven has a numeric high not above it, and one of them has exactly
    it.  The current candle's high plays no part. *)
Theorem getSellSignal_pullback_is_max (lib : Indicators) (s : Engine)
    (symbol : string) (sig : Setup) (ph : Q) :
  getSellSignal lib s symbol = Some sig →
  sig_pullbackHigh sig = Some ph →
  ∃ older seven cur,
    candles1m s !! symbol = Some (older ++ seven ++ [cur])
    ∧ length seven = 7%nat
    ∧ (∀ bar, bar ∈ seven → ∃ high, candleHigh bar = Some high ∧ (high <= ph)%Q)
    ∧ ∃ bar, bar ∈ seven ∧ candleHigh bar = Some ph.
Proof.
  intros Hsig Hph.
  apply getSellSignal_emits in Hsig
    as (c1 & ema8 & ema21 & rsi & atr & stoch & macd & Hc1 & Hlen & _ & _
        & Hdec).
  apply sell_decision_emits in Hdec as (_ & _ & _ & _ & _ & (_ & Hmax & _)).
  rewrite Hph in Hmax. symmetry in Hmax.
  apply Math_max_spec in Hmax as [Hall Hmem].
  destruct (lookback_previous_seven c1) as (older & cur & Hsplit & Hseven);
    [lia|].
  exists older, (slice_neg 8 1 c1), cur.
  split; [by rewrite <- Hsplit|]. split; [exact Hseven|]. split.
  - intros bar Hin. apply Hall. by apply list_elem_of_fmap_2.
  - apply list_elem_of_fmap in Hmem as (bar & Heq & Hin). eauto.
Qed.

Lemma getSellSignal_pullback_is_max_witness :
  ∃ sig ph seven,
    getSellSignal Scenario.table Scenario.warm Scenario.XAU = Some sig
    ∧ sig_pullbackHigh sig = Some ph
    ∧ length seven = 7%nat
    ∧ ∃ bar, bar ∈ seven ∧ candleHigh bar = Some ph.
Proof.
  destruct (getSellSignal Scenario.table Scenario.warm Scenario.XAU)
    as [sig|] eqn:Hsig; [|vm_compute in Hsig; discriminate].
  destruct (sig_pullbackHigh sig) as [ph|] eqn:Hph;
    [|vm_compute in Hsig; injection Hsig as <-; discriminate].
  destruct (getSellSignal_pullback_is_max _ _ _ _ _ Hsig Hph)
    as (older & seven & cur & _ & Hlen & _ & Hbar).
  exists sig, ph, seven. split; [reflexivity|]. split; [exact Hph|].
  split; [exact Hlen | exact Hbar].
Defined.

(** ** The rationale of a setup *)

Lemma sell_decision_reasons (c1 : list Candle) (closes : list num)
    (ema8 ema21 rsi atr : list num) (stoch : list StochRow)
    (macd : list MACDRow) (sig : Setup) :
  sell_decision c1 closes ema8 ema21 rsi atr stoch macd = Some sig →
  ∃ stochCur stochPrev macdCur,
    sig_reasons sig
    = _buildReasons (js_abs (sig_pullbackHigh sig - sig_ema21 sig)%js)
        (sig_atr sig) (sig_rsi sig) stochCur stochPrev macdCur (at_end macd 2).
Proof.
  unfold sell_decision. intros Hsig.
  repeat match type of Hsig with
    | (if ?b then _ else _) = _ => destruct b eqn:?; [discriminate|]
    | match ?o with Some _ => _ | None => _ end = _ =>
        destruct o eqn:?; [|discriminate]
    end.
  injection Hsig as <-. cbn. eauto.
Qed.

Lemma _buildReasons_lines (dist atr rsi : num) (stoch stochPrev : StochRow)
    (macd : MACDRow) (macdPrev : option MACDRow) :
  let reasons := _buildReasons dist atr rsi stoch stochPrev macd macdPrev in
  (PerfectTap ∈ reasons → (dist < atr * Num 0.15)%js = true)
  ∧ (CleanPullback ∈ reasons →
     (dist < atr * Num 0.15)%js = false ∧ (dist < atr * Num 0.3)%js = true)
  ∧ (∀ r, RsiOverbought r ∈ reasons →
       (rsi > Num 60)%js = true ∧ r = toFixed 0 (default 0%Q rsi))
  ∧ (length reasons <= 4)%nat.
Proof.
  cbn zeta. unfold _buildReasons.
  destruct (dist < atr * Num 0.15)%js;
    [|destruct (dist < atr * Num 0.3)%js];
    destruct (rsi > Num 60)%js;
    destruct (_ && _);
    (destruct macdPrev as [mp|]; [destruct (_ && _)|]);
    cbn [app length];
    (split; [|split; [|split; [|lia]]]);
    first [ intros r Hin | intros Hin ];
    repeat first
      [ apply elem_of_nil in Hin; destruct Hin
      | apply elem_of_cons in Hin as [Hin|Hin];
          [first [ discriminate Hin | injection Hin as -> | idtac ]|] ];
    done.
Qed.

(** X29. The rationale of an emitted setup is truthful about the pullback
    and the RSI: 'Perfect EMA21 tap' is listed only when the pullback high
    is within 0.15 ATR of the EMA21, 'Clean EMA21 pullback' only when it is
    at 0.15 ATR or more and within 0.3 ATR, and the RSI line only when the
    RSI is above 60, with that RSI rounded to a whole number.  The list
    has at most four lines. *)
Theorem getSellSignal_rationale (lib : Indicators) (s : Engine)
    (symbol : string) (sig : Setup) :
  getSellSignal lib s symbol = Some sig →
  (PerfectTap ∈ sig_reasons sig →
   ∃ p e a, sig_pullbackHigh sig = Some p ∧ sig_ema21 sig = Some e
            ∧ sig_atr sig = Some a ∧ (Qabs (p - e) < a * 0.15)%Q)
  ∧ (CleanPullback ∈ sig_reasons sig →
     ∃ p e a, sig_pullbackHigh sig = Some p ∧ sig_ema21 sig = Some e
              ∧ sig_atr sig = Some a
              ∧ (a * 0.15 <= Qabs (p - e))%Q ∧ (Qabs (p - e) < a * 0.3)%Q)
  ∧ (∀ r, RsiOverbought r ∈ sig_reasons sig →
       ∃ x, sig_rsi sig = Some x ∧ (60 < x)%Q ∧ r = toFixed 0 x)
  ∧ (length (sig_reasons sig) <= 4)%nat.
Proof.
  intros Hsig.
  apply getSellSignal_emits in Hsig
    as (c1 & ema8 & ema21 & rsi & atrs & stoch & macd & _ & _ & _ & _ & Hdec).
  apply sell_decision_reasons in Hdec as (cur & prev & mc & ->).
  destruct (_buildReasons_lines
              (js_abs (sig_pullbackHigh sig - sig_ema21 sig)%js)
              (sig_atr sig) (sig_rsi sig) cur prev mc (at_end macd 2))
    as (Htap & Hclean & Hrsi & Hlen).
  assert (Hdist : ∀ bound,
            (js_abs (sig_pullbackHigh sig - sig_ema21 sig)
             < sig_atr sig * Num bound)%js = true →
            ∃ p e a, sig_pullbackHigh sig = Some p ∧ sig_ema21 sig = Some e
                     ∧ sig_atr sig = Some a
                     ∧ (Qabs (p - e) < a * bound)%Q).
  { intros bound Hlt.
    destruct (sig_pullbackHigh sig) as [p|], (sig_ema21 sig) as [e|],
      (sig_atr sig) as [a|]; try discriminate.
    exists p, e, a. do 3 (split; [reflexivity|]). by apply Qlt_bool_iff. }
  split; [|split; [|split]].
  - intros Hin. apply Hdist, Htap, Hin.
  - intros Hin. destruct (Hclean Hin) as [Hfar Hnear].
    destruct (Hdist 0.3%Q Hnear) as (p & e & a & Hp & He & Ha & Hlt).
    rewrite Hp, He, Ha in Hfar. apply Qlt_bool_false in Hfar.
    exists p, e, a. do 3 (split; [assumption|]). split; assumption.
  - intros r Hin. destruct (Hrsi r Hin) as [Hhigh ->].
    apply js_gt_true in Hhigh as (x & n60 & Hx & [= <-] & Hlt).
    exists x. rewrite Hx. split; [reflexivity|]. split; [exact Hlt | reflexivity].
  - exact Hlen.
Qed.

Lemma getSellSignal_rationale_witness :
  ∃ sig p e a,
    getSellSignal Scenario.table Scenario.warm Scenario.XAU = Some sig
    ∧ PerfectTap ∈ sig_reasons sig
    ∧ sig_pullbackHigh sig = Some p ∧ sig_ema21 sig = Some e
    ∧ sig_atr sig = Some a ∧ (Qabs (p - e) < a * 0.15)%Q.
Proof.
  destruct (getSellSignal Scenario.table Scenario.warm Scenario.XAU)
    as [sig|] eqn:Hsig; [|vm_compute in Hsig; discriminate].
  assert (Hin : PerfectTap ∈ sig_reasons sig).
  { vm_compute in Hsig. injection Hsig as <-. cbn. left. }
  destruct (getSellSignal_rationale _ _ _ _ Hsig) as (Htap & _).
  destruct (Htap Hin) as (p & e & a & Hp & He & Ha & Hlt).
  exists sig, p, e, a. split; [reflexivity|]. split; [exact Hin|].
  split; [exact Hp|]. split; [exact He|]. split; [exact Ha | exact Hlt].
Defined.

(** ** The polling loop *)







(** Three passes a minute apart on an unchanged market: three Sells, no
    trade ever resolved, the books still empty. *)
Example three_passes_three_sells :
  let '(outs, a) :=
    poll_run Scenario.table Polls.started Polls.three_passes in
  (λ out, match out_result out with
          | Some (SELL _ _ _) => true
          | _ => false
          end) <$> outs = [true; true; true]
  ∧ out_resolved <$> outs = [Some (Ok None); Some (Ok None); Some (Ok None)]
  ∧ closed_total (stats (engine a)) = 0%nat.
Proof. vm_compute. repeat split; reflexivity. Qed.
